(** * TotalSegmentator-KonfAI: a shallow embedding of [totalsegmentator_konfai/main.py]

    The CLI driver [main] is modelled as a computation in a small
    writer-and-exception monad: it records the observable events of a run
    (messages on stdout/stderr, directory creation, downloads, file writes,
    the temporary directory's creation and removal, the engine process) and
    ends either normally or with a Python [SystemExit] or an uncaught
    exception.  The outside world (file system, Hugging Face hub, SimpleITK,
    the [konfai] executable) is an oracle record [Env] consulted at each call
    the code makes. *)

From Stdlib Require Import String Ascii List ZArith Bool Lia.
From Stdlib Require Import Decimal DecimalString.
Import ListNotations.
Open Scope string_scope.

(** ** Paths

    A [pathlib.Path] after [.absolute()] is the list of its components;
    [str(p)] joins them under the root. *)

Definition Path := list string.

Definition path_str (p : Path) : string :=
  match p with
  | [] => "/"
  | _ => String.concat "" (map (fun c => "/" ++ c) p)
  end.

(** [p.name]: the last component ([""] for the root). *)
Definition path_name (p : Path) : string := last p "".

(** [p.parent]: the path without its last component (the root is its own
    parent). *)
Definition path_parent (p : Path) : Path := removelast p.

(** [p / c] *)
Definition path_div (p : Path) (c : string) : Path := (p ++ [c])%list.

(** ** Python helpers *)

(** [s.endswith(suf)]: some tail of [s] equals [suf]. *)
Fixpoint endswith (s suf : string) : bool :=
  String.eqb s suf ||
  match s with
  | EmptyString => false
  | String _ s' => endswith s' suf
  end.

(** [sep.join(xs)] *)
Fixpoint str_join (sep : string) (xs : list string) : string :=
  match xs with
  | [] => ""
  | [x] => x
  | x :: xs' => x ++ sep ++ str_join sep xs'
  end.

(** [str(n)] for a Python [int]. *)
Definition str_int (n : Z) : string := NilZero.string_of_int (Z.to_int n).

(** ** Extension validation (lines 13-22, 131, 144) *)

Definition SUPPORTED_EXTENSIONS : list string :=
  [ "mha"; "mhd"; "nii"; "nii.gz"; "nrrd"; "nrrd.gz"; "gipl"; "gipl.gz" ].

(** [any(str(p).endswith(ext) for ext in SUPPORTED_EXTENSIONS)] *)
Definition has_supported_extension (p : Path) : bool :=
  existsb (fun ext => endswith (path_str p) ext) SUPPORTED_EXTENSIONS.

(** ** Task resolution (lines 33-48) *)

Definition _get_available_models : list string := ["total"; "total_mr"].

Definition get_models_name (task : string) (fast : bool) : list string * string :=
  let '(models_name, inference_file) := ([] : list string, "") in
  let '(models_name, inference_file) :=
    if String.eqb task "total" then
      (if negb fast then ["M291.pt"; "M292.pt"; "M293.pt"; "M294.pt"; "M295.pt"]
       else ["M297.pt"],
       if negb fast then "Prediction_CT.yml" else "Prediction_CT_Fast.yml")
    else (models_name, inference_file) in
  let '(models_name, inference_file) :=
    if String.eqb task "total_mr" then
      (if negb fast then ["M850.pt"; "M851.pt"] else ["M852.pt"],
       if negb fast then "Prediction_MR.yml" else "Prediction_MR_Fast.yml")
    else (models_name, inference_file) in
  (models_name, inference_file).

(** ** Observable events of a run *)

Inductive Event : Type :=
| EvStdout (msg : string)                 (* print(...) *)
| EvStderr (msg : string)                 (* print(..., file=sys.stderr) *)
| EvMkdirs (p : Path)                     (* Path.mkdir(parents=True) on a missing directory *)
| EvHubDownload (filename : string)       (* hf_hub_download(filename=...) *)
| EvTmpCreate (d : Path)                  (* tempfile.mkdtemp inside TemporaryDirectory() *)
| EvTmpRemove (d : Path)                  (* TemporaryDirectory.__exit__ *)
| EvCopy (src : string) (dst : Path)      (* shutil.copy2 *)
| EvWriteImage (p : Path)                 (* sitk.WriteImage *)
| EvSpawn (cmd : list string) (cwd : Path). (* subprocess.run(cmd, cwd=...) *)

(** Python exceptions raised by the calls [main] makes, with [str(e)]. *)
Inductive PyExn : Type :=
| OSError (detail : string)
| HubError (detail : string)
| ImageError (detail : string)
| FileNotFoundError (detail : string)
| CalledProcessError (returncode : Z).

Definition exn_str (e : PyExn) : string :=
  match e with
  | OSError d | HubError d | ImageError d | FileNotFoundError d => d
  | CalledProcessError rc =>
      "Command returned non-zero exit status " ++ str_int rc ++ "."
  end.

(** How a computation stops early: [sys.exit(code)] or an exception in flight. *)
Inductive Stop : Type :=
| SysExit (code : Z)
| Raised (e : PyExn).

(** ** The monad: events written so far, and a result or a [Stop]. *)

Definition M (A : Type) : Type := (list Event * (A + Stop))%type.

Definition ret {A} (a : A) : M A := ([], inl a).

Definition bind {A B} (m : M A) (k : A -> M B) : M B :=
  match m with
  | (w, inl a) => let (w', r) := k a in ((w ++ w')%list, r)
  | (w, inr s) => (w, inr s)
  end.

Notation "x <- m ;; k" := (bind m (fun x => k))
  (at level 61, m at next level, right associativity).
Notation "' p <- m ;; k" := (bind m (fun x => match x with p => k end))
  (at level 61, p pattern, m at next level, right associativity).
Notation "m ;; k" := (bind m (fun _ : unit => k))
  (at level 61, right associativity).

Definition emit (ev : Event) : M unit := ([ev], inl tt).
Definition eprint (msg : string) : M unit := emit (EvStderr msg).
Definition print (msg : string) : M unit := emit (EvStdout msg).
Definition sys_exit {A} (code : Z) : M A := ([], inr (SysExit code)).
Definition raise {A} (e : PyExn) : M A := ([], inr (Raised e)).

(** [try: m except ...: h(e)]: the handler sees the exception in flight;
    [SystemExit] is not an [Exception] and passes through. *)
Definition try_except {A} (m : M A) (h : PyExn -> M A) : M A :=
  match m with
  | (w, inr (Raised e)) => let (w', r) := h e in ((w ++ w')%list, r)
  | _ => m
  end.

(** ** The outside world *)

Inductive EngineResult : Type :=
| EngineNotFound                  (* the executable is not found: FileNotFoundError *)
| EngineSpawnError (detail : string)
    (* spawning fails with another OSError: PermissionError, Exec format error,
       fork failure *)
| EngineExited (returncode : Z).  (* the process ran; [Popen.returncode] *)

Record Env : Type := mkEnv {
  env_cwd : Path;
  env_cuda_visible_devices : option string;
  env_exists : Path -> bool;                 (* Path.exists() *)
  env_is_dir : Path -> bool;                 (* directory already present *)
  env_mkdir_error : Path -> option string;   (* Path.mkdir fails with OSError *)
  env_which_konfai : bool;                   (* shutil.which("konfai") is not None *)
  env_hub : string -> string + string;       (* local cache path, or the error *)
  env_mkdtemp : Path + string;               (* fresh directory, or the error *)
  env_copy_error : option string;            (* shutil.copy2 fails *)
  env_read_error : Path -> option string;    (* sitk.ReadImage fails *)
  env_write_error : Path -> option string;   (* sitk.WriteImage fails *)
  env_engine : EngineResult;                 (* outcome of the konfai process *)
  env_pred_exists : bool                     (* pred.exists() after the engine *)
}.

(** ** Library calls *)

Definition nl : string := String (ascii_of_nat 10) EmptyString.

(** [Path.mkdir(parents=True, exist_ok=True)] *)
Definition mkdir_parents (env : Env) (p : Path) : M unit :=
  if env_is_dir env p then ret tt
  else ([EvMkdirs p],
        match env_mkdir_error env p with
        | None => inl tt
        | Some err => inr (Raised (OSError err))
        end).

Definition hf_hub_download (env : Env) (filename : string) : M string :=
  ([EvHubDownload filename],
   match env_hub env filename with
   | inl local => inl local
   | inr err => inr (Raised (HubError err))
   end).

Definition copy2 (env : Env) (src : string) (dst : Path) : M unit :=
  ([EvCopy src dst],
   match env_copy_error env with
   | None => inl tt
   | Some err => inr (Raised (OSError err))
   end).

(** An image is represented by the file it was read from. *)
Definition ReadImage (env : Env) (p : Path) : M Path :=
  match env_read_error env p with
  | None => ret p
  | Some err => raise (ImageError err)
  end.

Definition WriteImage (env : Env) (img : Path) (p : Path) : M unit :=
  ([EvWriteImage p],
   match env_write_error env p with
   | None => inl tt
   | Some err => inr (Raised (ImageError err))
   end).

(** [subprocess.run(cmd, cwd=cwd, check=True)] *)
Definition subprocess_run (env : Env) (cmd : list string) (cwd : Path) : M unit :=
  ([EvSpawn cmd cwd],
   match env_engine env with
   | EngineNotFound => inr (Raised (FileNotFoundError (hd "" cmd)))
   | EngineSpawnError d => inr (Raised (OSError d))
   | EngineExited rc =>
       if Z.eqb rc 0 then inl tt else inr (Raised (CalledProcessError rc))
   end).

(** [with tempfile.TemporaryDirectory() as tmpdir: body]: the directory is
    created by [mkdtemp] and removed by [__exit__], whatever way [body]
    ends. *)
Definition with_TemporaryDirectory {A} (env : Env) (body : Path -> M A) : M A :=
  match env_mkdtemp env with
  | inr err => raise (OSError err)
  | inl d =>
      let (w, r) := body d in
      ((EvTmpCreate d :: w ++ [EvTmpRemove d])%list, r)
  end.

(** ** [ensure_konfai_available] (lines 25-30) *)

Definition msg_konfai_not_in_path : string :=
  "❌ 'konfai' CLI not found in PATH. Install/activate KonfAI.".

Definition ensure_konfai_available (env : Env) : M unit :=
  if negb (env_which_konfai env) then
    eprint msg_konfai_not_in_path ;; sys_exit 1
  else ret tt.

(** ** [download_models] (lines 51-70) *)

(** The [for model_name in models_name] loop appending to [models_path]. *)
Fixpoint download_loop (env : Env) (models_name : list string)
    (models_path : list string) : M (list string) :=
  match models_name with
  | [] => ret models_path
  | model_name :: rest =>
      p <- hf_hub_download env model_name ;;
      download_loop env rest (models_path ++ [p])%list
  end.

Definition msg_download_failed (e : PyExn) : string :=
  "❌ Error downloading models/config from Hugging Face: " ++ exn_str e.

Definition download_models (env : Env) (models_name : list string)
    (inference_file : string) : M (list string * string * string) :=
  try_except
    (models_path <- download_loop env models_name [] ;;
     model_path <- hf_hub_download env "Model.py" ;;
     inference_file_path <- hf_hub_download env inference_file ;;
     ret (models_path, inference_file_path, model_path))
    (fun e => eprint (msg_download_failed e) ;; sys_exit 1).

(** ** Command line (lines 74-124)

    [RawArgs] is what argparse has read from [argv], each path already
    converted by [type=lambda p: Path(p).absolute()]; [None] is an absent
    option.  [-h/--help] and [--version] print on stdout and exit 0 while
    argparse reads [argv], before [main] goes on; [RawArgs] describes the
    command lines without them, so a run modelled here is one in which
    neither was given. *)

Record RawArgs : Type := mkRawArgs {
  raw_input : option Path;
  raw_output : option Path;
  raw_task : option string;
  raw_fast : bool;
  raw_quiet : bool;
  raw_gpu : option string;
  raw_cpu : option Z
}.

Record Args : Type := mkArgs {
  input : Path;
  output : Path;
  task : string;
  fast : bool;
  quiet : bool;
  gpu : string;
  cpu : Z
}.

(** [parser.parse_args()]: [inl msg] is an argparse usage error
    ([parser.error], exit status 2).  A [choices] violation is reported
    while the option is consumed, the missing required option at the end. *)
Definition check_task_choice (raw : RawArgs) : string + unit :=
  match raw_task raw with
  | Some t =>
      if existsb (String.eqb t) _get_available_models then inr tt
      else inl ("error: argument -ta/--task: invalid choice: " ++ t)
  | None => inr tt
  end.

Definition parse_args (env : Env) (raw : RawArgs) : string + Args :=
  match check_task_choice raw, raw_input raw with
  | inl msg, _ => inl msg
  | inr _, None => inl "error: the following arguments are required: -i/--input"
  | inr _, Some i =>
      inr {| input := i;
             output := match raw_output raw with
                       | Some o => o
                       | None => path_div (env_cwd env) "Seg.nii.gz"
                       end;
             task := match raw_task raw with Some t => t | None => "total" end;
             fast := raw_fast raw;
             quiet := raw_quiet raw;
             gpu := match raw_gpu raw with
                    | Some g => g
                    | None => match env_cuda_visible_devices env with
                              | Some g => g
                              | None => ""
                              end
                    end;
             cpu := match raw_cpu raw with Some c => c | None => 1%Z end |}
  end.

(** ** Messages of [main] *)

Definition msg_input_missing (p : Path) : string :=
  "❌ Input file does not exist: " ++ path_str p.
Definition msg_unsupported_input (name : string) : string :=
  "❌ Unsupported input extension: " ++ name.
Definition msg_unsupported_output (name : string) : string :=
  "❌ Unsupported output extension: " ++ name.
Definition msg_supported : string :=
  "   Supported: " ++ str_join ", " SUPPORTED_EXTENSIONS.
Definition msg_cannot_create_dir (p : Path) (e : PyExn) : string :=
  "❌ Cannot create output directory " ++ path_str p ++ ": " ++ exn_str e.
Definition msg_cannot_copy (e : PyExn) : string :=
  "❌ Cannot copy Model.py into temp dir: " ++ exn_str e.
(** [print(a, b)] writes [a], a space, then [b]. *)
Definition msg_convert_in (inp vol_out : Path) (e : PyExn) : string :=
  "❌ Error reading/writing image with SimpleITK:" ++ nl ++ "   in : " ++ path_str inp ++ nl
  ++ " " ++ "out: " ++ path_str vol_out ++ nl ++ "   detail: " ++ exn_str e.
Definition msg_engine_failed (rc : Z) : string :=
  "❌ 'konfai PREDICTION' failed with exit code " ++ str_int rc ++ ".".
Definition msg_engine_not_found : string :=
  "❌ 'konfai' executable not found. Ensure it is installed and on PATH.".
Definition msg_pred_missing (pred : Path) : string :=
  "❌ Prediction not found at: " ++ path_str pred ++ nl ++ "   Check KonfAI logs for details.".
Definition msg_convert_out (pred out : Path) (e : PyExn) : string :=
  "❌ Error saving output segmentation:" ++ nl ++ "   from: " ++ path_str pred ++ nl
  ++ "   to  : " ++ path_str out ++ nl ++ "   detail: " ++ exn_str e.
Definition msg_done (out : Path) : string :=
  "✅ Done. Segmentation saved to: " ++ path_str out.

(** ** The engine command (lines 177-191) *)

Definition build_cmd (models_path : list string) (inference_file_path : string)
    (gpu : string) (cpu : Z) (quiet : bool) : list string :=
  let cmd := ["konfai"; "PREDICTION"; "-y"; "--MODEL"; str_join ":" models_path;
              "--config"; inference_file_path] in
  let cmd := if negb (String.eqb gpu "") then (cmd ++ ["--gpu"; gpu])%list
             else (cmd ++ ["--cpu"; str_int cpu])%list in
  if quiet then (cmd ++ ["-quiet"])%list else cmd.

(** ** Fixed workspace layout (lines 155, 159, 165, 201) *)

Definition dataset_dir (tmpdir : Path) : Path :=
  path_div (path_div tmpdir "Dataset") "P001".
Definition volume_path (tmpdir : Path) : Path :=
  path_div (dataset_dir tmpdir) "Volume.nii.gz".
Definition prediction_path (tmpdir : Path) : Path :=
  path_div (path_div (path_div (path_div (path_div tmpdir "Predictions")
    "TotalSegmentator") "Dataset") "P001") "Seg.mha".

(** ** [main] after [parse_args] (lines 126-217) *)

Definition check_input (env : Env) (args : Args) : M unit :=
  (if negb (env_exists env (input args)) then
     eprint (msg_input_missing (input args)) ;; sys_exit 1
   else ret tt) ;;
  (if negb (has_supported_extension (input args)) then
     eprint (msg_unsupported_input (path_name (input args))) ;;
     eprint msg_supported ;;
     sys_exit 1
   else ret tt).

Definition check_output (env : Env) (args : Args) : M unit :=
  let out_parent := path_parent (output args) in
  try_except (mkdir_parents env out_parent)
    (fun e => eprint (msg_cannot_create_dir out_parent e) ;; sys_exit 1) ;;
  (if negb (has_supported_extension (output args)) then
     eprint (msg_unsupported_output (path_name (output args))) ;;
     eprint msg_supported ;;
     sys_exit 1
   else ret tt).

(** The body of the [with tempfile.TemporaryDirectory()] block. *)
Definition in_workspace (env : Env) (args : Args) (models_path : list string)
    (inference_file_path model_path : string) (tmpdir : Path) : M unit :=
  mkdir_parents env (dataset_dir tmpdir) ;;
  try_except (copy2 env model_path (path_div tmpdir "Model.py"))
    (fun e => eprint (msg_cannot_copy e) ;; sys_exit 1) ;;
  let vol_out := volume_path tmpdir in
  try_except (img <- ReadImage env (input args) ;; WriteImage env img vol_out)
    (fun e => eprint (msg_convert_in (input args) vol_out e) ;; sys_exit 1) ;;
  let cmd := build_cmd models_path inference_file_path (gpu args) (cpu args) (quiet args) in
  try_except (subprocess_run env cmd tmpdir)
    (fun e => match e with
              | CalledProcessError rc => eprint (msg_engine_failed rc) ;; sys_exit rc
              | FileNotFoundError _ => eprint msg_engine_not_found ;; sys_exit 1
              | _ => raise e
              end) ;;
  let pred := prediction_path tmpdir in
  (if negb (env_pred_exists env) then
     eprint (msg_pred_missing pred) ;; sys_exit 1
   else ret tt) ;;
  try_except (seg <- ReadImage env pred ;; WriteImage env seg (output args))
    (fun e => eprint (msg_convert_out pred (output args) e) ;; sys_exit 1).

Definition main_with_args (env : Env) (args : Args) : M unit :=
  check_input env args ;;
  check_output env args ;;
  ensure_konfai_available env ;;
  let '(models_name, inference_file) := get_models_name (task args) (fast args) in
  '(models_path, inference_file_path, model_path) <-
     download_models env models_name inference_file ;;
  with_TemporaryDirectory env
    (in_workspace env args models_path inference_file_path model_path) ;;
  (if negb (quiet args) then print (msg_done (output args)) else ret tt).

(** How the interpreter ends after [main]: status 0 when it returns, the low
    eight bits of [code] on [sys.exit(code)] (the process exit status is
    [code & 0xff]: [sys.exit(-9)] exits with 247), and 1 (after a traceback)
    on an uncaught exception. *)
Definition exit_status (r : unit + Stop) : Z :=
  match r with
  | inl _ => 0
  | inr (SysExit code) => Z.land code 255
  | inr (Raised _) => 1
  end.

Definition traceback (r : unit + Stop) : list Event :=
  match r with
  | inr (Raised e) => [EvStderr ("Traceback (most recent call last): ... " ++ exn_str e)]
  | _ => []
  end.

(** A whole run: the events and the process exit status.  argparse errors
    exit with status 2. *)
Definition run (env : Env) (raw : RawArgs) : list Event * Z :=
  match parse_args env raw with
  | inl msg => ([EvStderr ("usage: ... " ++ msg)], 2%Z)
  | inr args =>
      let (w, r) := main_with_args env args in
      ((w ++ traceback r)%list, exit_status r)
  end.

Definition run_trace (env : Env) (raw : RawArgs) : list Event := fst (run env raw).
Definition run_status (env : Env) (raw : RawArgs) : Z := snd (run env raw).

(** Which events change the outside world (everything but console output). *)
Definition is_side_effect (ev : Event) : bool :=
  match ev with
  | EvStdout _ | EvStderr _ => false
  | _ => true
  end.

(** File writes, and the path each one writes. *)
Definition writes_file (ev : Event) (p : Path) : Prop :=
  match ev with
  | EvCopy _ dst => dst = p
  | EvWriteImage q => q = p
  | _ => False
  end.

(** The events [main] can produce before the temporary directory exists. *)
Definition pre_event (args : Args) (ev : Event) : Prop :=
  match ev with
  | EvStderr _ | EvHubDownload _ => True
  | EvMkdirs p => p = path_parent (output args)
  | _ => False
  end.

Arguments msg_input_missing : simpl never.
Arguments msg_unsupported_input : simpl never.
Arguments msg_unsupported_output : simpl never.
Arguments msg_supported : simpl never.
Arguments msg_cannot_create_dir : simpl never.
Arguments msg_cannot_copy : simpl never.
Arguments msg_convert_in : simpl never.
Arguments msg_engine_failed : simpl never.
Arguments msg_engine_not_found : simpl never.
Arguments msg_konfai_not_in_path : simpl never.
Arguments msg_pred_missing : simpl never.
Arguments msg_convert_out : simpl never.
Arguments msg_done : simpl never.
Arguments msg_download_failed : simpl never.
Arguments path_str : simpl never.
Arguments has_supported_extension : simpl never.
Arguments get_models_name : simpl never.
Arguments download_models : simpl never.
Arguments build_cmd : simpl never.
Arguments exn_str : simpl never.

(** ** Concrete runs used by the witnesses and counterexamples *)

(** A world in which everything succeeds except what a field says:
    [/home] and [/data] are the only existing directories, the hub serves
    every file from [/cache], the engine exits with [rc]. *)
Definition env_example (rc : Z) : Env := {|
  env_cwd := ["home"];
  env_cuda_visible_devices := None;
  env_exists := fun _ => true;
  env_is_dir := fun p => match p with ["home"] | ["data"] => true | _ => false end;
  env_mkdir_error := fun _ => None;
  env_which_konfai := true;
  env_hub := fun f => inl ("/cache/" ++ f);
  env_mkdtemp := inl ["tmp"; "tmpab12"];
  env_copy_error := None;
  env_read_error := fun _ => None;
  env_write_error := fun _ => None;
  env_engine := EngineExited rc;
  env_pred_exists := true |}.

Definition raw_example (inp out : Path) (task : option string) (fast : bool)
    (gpu : option string) : RawArgs := {|
  raw_input := Some inp; raw_output := Some out; raw_task := task;
  raw_fast := fast; raw_quiet := false; raw_gpu := gpu; raw_cpu := None |}.

Definition env_engine_missing_pred : Env :=
  {| env_cwd := ["home"]; env_cuda_visible_devices := None;
     env_exists := fun _ => true;
     env_is_dir := fun p => match p with ["home"] | ["data"] => true | _ => false end;
     env_mkdir_error := fun _ => None; env_which_konfai := true;
     env_hub := fun f => inl ("/cache/" ++ f); env_mkdtemp := inl ["tmp"; "tmpab12"];
     env_copy_error := None; env_read_error := fun _ => None;
     env_write_error := fun _ => None; env_engine := EngineExited 0;
     env_pred_exists := false |}.

(** The hub refuses the file [bad]. *)
Definition env_hub_fails (bad : string) : Env :=
  {| env_cwd := ["home"]; env_cuda_visible_devices := None;
     env_exists := fun _ => true;
     env_is_dir := fun p => match p with ["home"] | ["data"] => true | _ => false end;
     env_mkdir_error := fun _ => None; env_which_konfai := true;
     env_hub := fun f => if String.eqb f bad then inr "404 Client Error"
                         else inl ("/cache/" ++ f);
     env_mkdtemp := inl ["tmp"; "tmpab12"];
     env_copy_error := None; env_read_error := fun _ => None;
     env_write_error := fun _ => None; env_engine := EngineExited 0;
     env_pred_exists := true |}.

(** Copying [Model.py] into the workspace fails. *)
Definition env_copy_fails : Env :=
  {| env_cwd := ["home"]; env_cuda_visible_devices := None;
     env_exists := fun _ => true;
     env_is_dir := fun p => match p with ["home"] | ["data"] => true | _ => false end;
     env_mkdir_error := fun _ => None; env_which_konfai := true;
     env_hub := fun f => inl ("/cache/" ++ f); env_mkdtemp := inl ["tmp"; "tmpab12"];
     env_copy_error := Some "Permission denied"; env_read_error := fun _ => None;
     env_write_error := fun _ => None; env_engine := EngineExited 0;
     env_pred_exists := true |}.

(** The input image cannot be read. *)
Definition env_read_fails : Env :=
  {| env_cwd := ["home"]; env_cuda_visible_devices := None;
     env_exists := fun _ => true;
     env_is_dir := fun p => match p with ["home"] | ["data"] => true | _ => false end;
     env_mkdir_error := fun _ => None; env_which_konfai := true;
     env_hub := fun f => inl ("/cache/" ++ f); env_mkdtemp := inl ["tmp"; "tmpab12"];
     env_copy_error := None;
     env_read_error := fun p => match p with ["home"; "scan.nii.gz"] => Some "corrupt header"
                                        | _ => None end;
     env_write_error := fun _ => None; env_engine := EngineExited 0;
     env_pred_exists := true |}.

(** The output directory [/data] is missing and cannot be created. *)
Definition env_outdir_fails : Env :=
  {| env_cwd := ["home"]; env_cuda_visible_devices := None;
     env_exists := fun _ => true;
     env_is_dir := fun p => match p with ["home"] => true | _ => false end;
     env_mkdir_error := fun p => match p with ["data"] => Some "Permission denied"
                                         | _ => None end;
     env_which_konfai := true;
     env_hub := fun f => inl ("/cache/" ++ f); env_mkdtemp := inl ["tmp"; "tmpab12"];
     env_copy_error := None; env_read_error := fun _ => None;
     env_write_error := fun _ => None; env_engine := EngineExited 0;
     env_pred_exists := true |}.

(** No [konfai] on the PATH. *)
Definition env_no_konfai : Env :=
  {| env_cwd := ["home"]; env_cuda_visible_devices := None;
     env_exists := fun _ => true;
     env_is_dir := fun p => match p with ["home"] | ["data"] => true | _ => false end;
     env_mkdir_error := fun _ => None; env_which_konfai := false;
     env_hub := fun f => inl ("/cache/" ++ f); env_mkdtemp := inl ["tmp"; "tmpab12"];
     env_copy_error := None; env_read_error := fun _ => None;
     env_write_error := fun _ => None; env_engine := EngineExited 0;
     env_pred_exists := true |}.

(** A run under the given [CUDA_VISIBLE_DEVICES]. *)
Definition env_cuda (v : option string) : Env :=
  {| env_cwd := ["home"]; env_cuda_visible_devices := v;
     env_exists := fun _ => true;
     env_is_dir := fun p => match p with ["home"] | ["data"] => true | _ => false end;
     env_mkdir_error := fun _ => None; env_which_konfai := true;
     env_hub := fun f => inl ("/cache/" ++ f); env_mkdtemp := inl ["tmp"; "tmpab12"];
     env_copy_error := None; env_read_error := fun _ => None;
     env_write_error := fun _ => None; env_engine := EngineExited 0;
     env_pred_exists := true |}.

(** The engine's prediction cannot be read. *)
Definition env_pred_unreadable : Env :=
  {| env_cwd := ["home"]; env_cuda_visible_devices := None;
     env_exists := fun _ => true;
     env_is_dir := fun p => match p with ["home"] | ["data"] => true | _ => false end;
     env_mkdir_error := fun _ => None; env_which_konfai := true;
     env_hub := fun f => inl ("/cache/" ++ f); env_mkdtemp := inl ["tmp"; "tmpab12"];
     env_copy_error := None;
     env_read_error := fun p => if list_eq_dec string_dec p (prediction_path ["tmp"; "tmpab12"])
                                then Some "truncated file" else None;
     env_write_error := fun _ => None; env_engine := EngineExited 0;
     env_pred_exists := true |}.

(** A command line with every option given but [-o]. *)
Definition raw_no_output (inp : Path) (quiet : bool) : RawArgs := {|
  raw_input := Some inp; raw_output := None; raw_task := Some "total_mr";
  raw_fast := false; raw_quiet := quiet; raw_gpu := None; raw_cpu := Some 4%Z |}.

(** The return codes [Popen.returncode] can take: an exit status 0..255, or
    minus the number of the signal that killed the process. *)
Definition returncode_in_range (env : Env) : Prop :=
  forall rc, env_engine env = EngineExited rc -> (-256 < rc < 256)%Z.

(** ** Orderings and projections of traces *)

(** [b] occurs in [l] after an occurrence of [a]. *)
Definition occurs_before (a b : Event) (l : list Event) : Prop :=
  exists pre post, l = (pre ++ b :: post)%list /\ In a pre.

(** The files requested from the hub, in request order. *)
Definition downloads_of (l : list Event) : list string :=
  flat_map (fun ev => match ev with EvHubDownload f => [f] | _ => [] end) l.

(** The events of a parsed run outside the workspace block. *)
Definition early_event (args : Args) (ev : Event) : Prop :=
  (exists m, ev = EvStderr m) \/ ev = EvMkdirs (path_parent (output args))
  \/ (exists f, ev = EvHubDownload f).

(** ** Monad lemmas *)

Lemma In_bind {A B} (m : M A) (k : A -> M B) ev :
  In ev (fst (bind m k)) ->
  In ev (fst m) \/ exists a, snd m = inl a /\ In ev (fst (k a)).
Proof.
  destruct m as [w [a|s]]; simpl; auto.
  destruct (k a) as [w' r] eqn:Ek; simpl.
  intros Hin; apply in_app_or in Hin as [Hin|Hin]; auto.
  right; exists a; rewrite Ek; auto.
Qed.

Lemma run_parsed env raw args :
  parse_args env raw = inr args ->
  run env raw =
    ((fst (main_with_args env args) ++ traceback (snd (main_with_args env args)))%list,
     exit_status (snd (main_with_args env args))).
Proof. unfold run; intros ->; destruct (main_with_args env args); reflexivity. Qed.

(** ** Suffix matching *)

Lemma endswith_spec s suf :
  endswith s suf = true <-> exists pre, s = (pre ++ suf)%string.
Proof.
  split.
  - induction s as [|a s IH]; cbn [endswith].
    + destruct suf; [intros _; exists ""; reflexivity | discriminate].
    + intros H; apply orb_true_iff in H as [H|H].
      * apply String.eqb_eq in H; subst; exists ""; reflexivity.
      * destruct (IH H) as [pre ->]; exists (String a pre); reflexivity.
  - intros [pre ->]; induction pre as [|a pre IH]; cbn [endswith append].
    + destruct suf; cbn [endswith]; rewrite String.eqb_refl; reflexivity.
    + rewrite IH, orb_true_r; reflexivity.
Qed.

(** A hypothesis [In ev l] with [l] a concrete list of console messages
    contradicts [is_side_effect ev = true]. *)
Ltac no_side_effect Hin Hse :=
  simpl in Hin;
  repeat (destruct Hin as [<-|Hin]; [discriminate Hse|]);
  try contradiction.

(** Case analysis on the oracle answers of a run, in the order [main]
    consults them: the first [match] whose scrutinee is an answer of the
    environment is split, then the goal is reduced. *)
Ltac oracle_step :=
  match goal with
  | |- context [match ?x with _ => _ end] =>
    lazymatch x with
    | negb ?y => destruct y eqn:?
    | env_exists _ _ => destruct x eqn:?
    | env_is_dir _ _ => destruct x eqn:?
    | env_mkdir_error _ _ => destruct x eqn:?
    | env_which_konfai _ => destruct x eqn:?
    | env_mkdtemp _ => destruct x eqn:?
    | env_copy_error _ => destruct x eqn:?
    | env_read_error _ _ => destruct x eqn:?
    | env_write_error _ _ => destruct x eqn:?
    | env_engine _ => destruct x eqn:?
    | Z.eqb ?a ?b => destruct (Z.eqb_spec a b)
    | env_pred_exists _ => destruct x eqn:?
    | quiet _ => destruct x eqn:?
    | has_supported_extension _ => destruct x eqn:?
    end
  end; simpl.

Ltac crunch := repeat oracle_step.

(** A hypothesis [In ev l], [l] a concrete list, split into one equation
    per element; impossible ones are discarded. *)
Ltac in_cases H :=
  simpl in H; try (destruct H; fail); decompose [or] H; clear H;
  repeat match goal with
         | H : False |- _ => contradiction
         | H : ?a = ?b |- _ => first [discriminate H | injection H; clear H; intros]
         end;
  subst.

(** Close a conjunction of equations and memberships in concrete lists. *)
Ltac finish :=
  rewrite ?in_app_iff; simpl; repeat split; auto;
  repeat (first [left; reflexivity | right]).

(** [Forall (pre_event args) l] for [l] built from downloads, messages and
    the output directory's creation. *)
Ltac pre_ok :=
  repeat match goal with
  | |- Forall _ [] => constructor
  | |- Forall _ (_ :: _) => constructor
  | |- Forall _ (_ ++ _) => apply Forall_app; split
  | |- Forall _ (map _ _) => apply Forall_map, Forall_forall; intros; exact I
  | |- Forall _ ?w => eapply Forall_impl; [|eassumption]; intros ? [? ->]; exact I
  | |- pre_event _ _ => simpl; auto
  end.

(** ** C3: the two documented task resolutions *)

(** C3: [get_models_name] is a (pure, deterministic) function; on
    ("total", fast=false) it returns the five CT ensemble members in order
    with the standard CT configuration [Prediction_CT.yml], and on
    ("total_mr", fast=true) the single fast MR model with
    [Prediction_MR_Fast.yml]. *)
Theorem get_models_name_scenarios :
  get_models_name "total" false =
    (["M291.pt"; "M292.pt"; "M293.pt"; "M294.pt"; "M295.pt"], "Prediction_CT.yml")
  /\ length (fst (get_models_name "total" false)) = 5
  /\ get_models_name "total_mr" true = (["M852.pt"], "Prediction_MR_Fast.yml")
  /\ length (fst (get_models_name "total_mr" true)) = 1.
Proof. repeat split. Qed.

(** ** C10: unknown tasks *)

(** C10: for a task other than "total" and "total_mr", [get_models_name]
    returns no model and the empty configuration name (it raises nothing);
    argparse's [choices] is exactly ["total"; "total_mr"], so such a task is
    rejected by [parse_args] and every parsed task is one of the two. *)
Theorem get_models_name_unknown_task (t : string) (f : bool) :
  t <> "total" -> t <> "total_mr" ->
  get_models_name t f = ([], "")
  /\ _get_available_models = ["total"; "total_mr"]
  /\ (forall env raw, raw_task raw = Some t -> exists msg, parse_args env raw = inl msg)
  /\ (forall env raw args, parse_args env raw = inr args ->
        In (task args) _get_available_models).
Proof.
  intros H1 H2.
  apply String.eqb_neq in H1; apply String.eqb_neq in H2.
  split; [unfold get_models_name; rewrite H1, H2; reflexivity|].
  split; [reflexivity|].
  split.
  - intros env raw Ht; unfold parse_args, check_task_choice; rewrite Ht.
    simpl; rewrite H1, H2; simpl; eexists; reflexivity.
  - intros env raw args; unfold parse_args, check_task_choice.
    destruct (raw_task raw) as [t'|] eqn:Ht.
    + destruct (existsb (String.eqb t') _get_available_models) eqn:Hc;
        [|discriminate].
      destruct (raw_input raw); [|discriminate].
      intros [= <-]; simpl.
      apply existsb_exists in Hc as [x [Hx Heq]].
      apply String.eqb_eq in Heq; subst; exact Hx.
    + destruct (raw_input raw); [|discriminate].
      intros [= <-]; simpl; auto.
Qed.

Lemma get_models_name_unknown_task_witness :
  ("foo" <> "total" /\ "foo" <> "total_mr")
  /\ get_models_name "foo" false = ([], "").
Proof.
  split; [split; discriminate|].
  apply (get_models_name_unknown_task "foo" false); discriminate.
Defined.

(** ** C4: extension validation *)

Lemma has_supported_extension_spec p :
  has_supported_extension p = true <->
  exists ext pre, In ext SUPPORTED_EXTENSIONS /\ path_str p = (pre ++ ext)%string.
Proof.
  unfold has_supported_extension; rewrite existsb_exists; split.
  - intros [ext [Hin He]]; apply endswith_spec in He as [pre Hpre].
    exists ext, pre; auto.
  - intros [ext [pre [Hin He]]]; exists ext; split; auto.
    apply endswith_spec; eauto.
Qed.

(** C4: a path passes validation iff its string form [str(p)] ends with one
    of the eight listed suffixes (a plain suffix match).  The same test
    [has_supported_extension] is applied to the input and to the output;
    when it rejects the input (an existing file), or the output (after its
    directory is in place), the run prints the rejected file name and the
    whole supported list on stderr and exits with status 1. *)
Theorem extension_validation :
  (forall p, has_supported_extension p = true <->
     exists ext pre,
       In ext ["mha"; "mhd"; "nii"; "nii.gz"; "nrrd"; "nrrd.gz"; "gipl"; "gipl.gz"]
       /\ path_str p = (pre ++ ext)%string)
  /\ msg_supported = "   Supported: mha, mhd, nii, nii.gz, nrrd, nrrd.gz, gipl, gipl.gz"
  /\ (forall env raw args,
        parse_args env raw = inr args ->
        env_exists env (input args) = true ->
        has_supported_extension (input args) = false ->
        run env raw =
          ([EvStderr (msg_unsupported_input (path_name (input args)));
            EvStderr msg_supported], 1%Z))
  /\ (forall env raw args,
        parse_args env raw = inr args ->
        env_exists env (input args) = true ->
        has_supported_extension (input args) = true ->
        (env_is_dir env (path_parent (output args)) = true \/
         env_mkdir_error env (path_parent (output args)) = None) ->
        has_supported_extension (output args) = false ->
        exists mk,
          run env raw =
            ((mk ++ [EvStderr (msg_unsupported_output (path_name (output args)));
                     EvStderr msg_supported])%list, 1%Z)).
Proof.
  split; [exact has_supported_extension_spec|].
  split; [reflexivity|].
  split.
  - intros env raw args Hp He Hs; rewrite (run_parsed _ _ _ Hp).
    unfold main_with_args, check_input; rewrite He, Hs; reflexivity.
  - intros env raw args Hp He Hs Hdir Ho; rewrite (run_parsed _ _ _ Hp).
    unfold main_with_args, check_input, check_output, mkdir_parents.
    rewrite He, Hs, Ho.
    destruct (env_is_dir env (path_parent (output args))) eqn:Hd.
    + exists []; reflexivity.
    + destruct Hdir as [Hdir|Hdir]; [discriminate|].
      rewrite Hdir; exists [EvMkdirs (path_parent (output args))]; reflexivity.
Qed.

Lemma extension_validation_witness :
  run (env_example 0) (raw_example ["home"; "scan.txt"] ["home"; "seg.nii.gz"] None false None)
  = ([EvStderr (msg_unsupported_input "scan.txt"); EvStderr msg_supported], 1%Z).
Proof.
  destruct extension_validation as [_ [_ [H _]]].
  apply (H (env_example 0)
           (raw_example ["home"; "scan.txt"] ["home"; "seg.nii.gz"] None false None)
           (mkArgs ["home"; "scan.txt"] ["home"; "seg.nii.gz"] "total" false false "" 1));
    vm_compute; reflexivity.
Defined.

(** ** C1: side effects and validation order *)

(** C1 (counterexample): with input [/home/scan.nii.gz] and output
    [/new/out.txt], where [/new] does not exist, the run creates [/new]
    and only then rejects the output extension. *)
Lemma side_effect_before_output_validation :
  has_supported_extension ["new"; "out.txt"] = false
  /\ run (env_example 0) (raw_example ["home"; "scan.nii.gz"] ["new"; "out.txt"] None false None)
     = ([EvMkdirs ["new"];
         EvStderr (msg_unsupported_output "out.txt");
         EvStderr msg_supported], 1%Z).
Proof. split; vm_compute; reflexivity. Qed.

(** C1 (amended): every side effect of a run happens after the input file
    was found and its extension accepted; apart from creating the output's
    parent directory, which [main] does before checking the output
    extension, every side effect also happens after the output extension
    was accepted. *)
Theorem side_effects_after_validation env raw args ev :
  parse_args env raw = inr args ->
  In ev (run_trace env raw) ->
  is_side_effect ev = true ->
  env_exists env (input args) = true
  /\ has_supported_extension (input args) = true
  /\ (ev = EvMkdirs (path_parent (output args))
      \/ has_supported_extension (output args) = true).
Proof.
  intros Hp Hin Hse; unfold run_trace in Hin; rewrite (run_parsed _ _ _ Hp) in Hin.
  unfold main_with_args, check_input in Hin.
  destruct (env_exists env (input args)) eqn:He; [|no_side_effect Hin Hse].
  destruct (has_supported_extension (input args)) eqn:Hi; [|no_side_effect Hin Hse].
  split; [reflexivity|split; [reflexivity|]].
  destruct (has_supported_extension (output args)) eqn:Ho; [right; reflexivity|left].
  unfold check_output, mkdir_parents in Hin; rewrite Ho in Hin.
  destruct (env_is_dir env (path_parent (output args))); [no_side_effect Hin Hse|].
  destruct (env_mkdir_error env (path_parent (output args)));
    simpl in Hin; destruct Hin as [<-|Hin]; auto; no_side_effect Hin Hse.
Qed.

Lemma side_effects_after_validation_witness :
  env_exists (env_example 0) ["home"; "scan.nii.gz"] = true
  /\ has_supported_extension ["home"; "scan.nii.gz"] = true
  /\ (EvMkdirs ["new"] = EvMkdirs (path_parent ["new"; "out.txt"])
      \/ has_supported_extension ["new"; "out.txt"] = true).
Proof.
  apply (side_effects_after_validation (env_example 0)
           (raw_example ["home"; "scan.nii.gz"] ["new"; "out.txt"] None false None)
           (mkArgs ["home"; "scan.nii.gz"] ["new"; "out.txt"] "total" false false "" 1)
           (EvMkdirs ["new"])); vm_compute; auto.
Defined.

(** ** The download loop keeps the order of [models_name] *)

Lemma download_loop_cases env names acc :
  (exists paths,
      download_loop env names acc = (map EvHubDownload names, inl (acc ++ paths)%list)
      /\ Forall2 (fun n p => env_hub env n = inl p) names paths)
  \/ (exists w e,
      download_loop env names acc = (w, inr (Raised e))
      /\ Forall (fun ev => exists f, ev = EvHubDownload f) w).
Proof.
  revert acc; induction names as [|n names IH]; intros acc; simpl.
  - left; exists []; rewrite app_nil_r; auto.
  - unfold hf_hub_download; destruct (env_hub env n) as [p|err] eqn:Hn; simpl.
    + destruct (IH (acc ++ [p])%list) as [[paths [-> Hf]]|[w [e [-> Hf]]]]; simpl.
      * left; exists (p :: paths); rewrite <- app_assoc; auto.
      * right; exists (EvHubDownload n :: w), e; split; [reflexivity|].
        constructor; eauto.
    + right; exists [EvHubDownload n], (HubError err); split; [reflexivity|].
      constructor; eauto.
Qed.

Lemma download_models_cases env names inf :
  (exists paths ip mp,
      download_models env names inf =
        ((map EvHubDownload names ++ [EvHubDownload "Model.py"; EvHubDownload inf])%list,
         inl (paths, ip, mp))
      /\ Forall2 (fun n p => env_hub env n = inl p) names paths
      /\ env_hub env "Model.py" = inl mp
      /\ env_hub env inf = inl ip)
  \/ (exists w e,
      download_models env names inf = ((w ++ [EvStderr (msg_download_failed e)])%list, inr (SysExit 1))
      /\ Forall (fun ev => exists f, ev = EvHubDownload f) w).
Proof.
  unfold download_models.
  destruct (download_loop_cases env names []) as [[paths [-> Hf]]|[w [e [-> Hf]]]];
    simpl.
  - unfold hf_hub_download.
    destruct (env_hub env "Model.py") as [mp|err] eqn:Hm; simpl.
    + destruct (env_hub env inf) as [ip|err] eqn:Hi; simpl.
      * left; exists paths, ip, mp; rewrite <- ?app_assoc; auto.
      * right; exists (map EvHubDownload names ++ [EvHubDownload "Model.py"; EvHubDownload inf])%list,
          (HubError err).
        split; [simpl; rewrite <- ?app_assoc; reflexivity|].
        apply Forall_app; split; [apply Forall_map, Forall_forall; eauto|].
        repeat constructor; eauto.
    + right; exists (map EvHubDownload names ++ [EvHubDownload "Model.py"])%list, (HubError err).
      split; [simpl; rewrite <- ?app_assoc; reflexivity|].
      apply Forall_app; split; [apply Forall_map, Forall_forall; eauto|].
      repeat constructor; eauto.
  - right; exists w, e; auto.
Qed.

(** ** The workspace block *)

Section Workspace.
Variables (env : Env) (args : Args) (models_path : list string)
  (inference_file_path model_path : string) (tmpdir : Path).

Local Abbreviation ws := (in_workspace env args models_path inference_file_path model_path tmpdir).
Local Abbreviation cmd := (build_cmd models_path inference_file_path (gpu args) (cpu args) (quiet args)).

Lemma in_workspace_status :
  snd ws = inl tt
  \/ snd ws = inr (SysExit 1)
  \/ (exists err, snd ws = inr (Raised (OSError err)))
  \/ (exists rc, snd ws = inr (SysExit rc) /\ env_engine env = EngineExited rc /\ rc <> 0%Z
                /\ In (EvSpawn cmd tmpdir) (fst ws)).
Proof.
  unfold in_workspace, mkdir_parents, copy2, ReadImage, WriteImage, subprocess_run.
  simpl; crunch; try (eauto 8; fail).
  all: right; right; right; eexists; finish.
Qed.

Lemma in_workspace_spawn c cwd :
  In (EvSpawn c cwd) (fst ws) -> c = cmd /\ cwd = tmpdir.
Proof.
  unfold in_workspace, mkdir_parents, copy2, ReadImage, WriteImage, subprocess_run.
  simpl; crunch; intros Hin; in_cases Hin; auto.
Qed.

Ltac ws_unfold :=
  unfold in_workspace, mkdir_parents, copy2, ReadImage, WriteImage, subprocess_run;
  simpl; crunch.

Lemma in_workspace_engine_failed c cwd rc :
  In (EvSpawn c cwd) (fst ws) -> env_engine env = EngineExited rc -> rc <> 0%Z ->
  snd ws = inr (SysExit rc) /\ In (EvStderr (msg_engine_failed rc)) (fst ws).
Proof.
  ws_unfold; intros Hin ? ?; in_cases Hin; try congruence.
  all: finish.
Qed.

Lemma in_workspace_engine_not_found c cwd :
  In (EvSpawn c cwd) (fst ws) -> env_engine env = EngineNotFound ->
  snd ws = inr (SysExit 1) /\ In (EvStderr msg_engine_not_found) (fst ws).
Proof.
  ws_unfold; intros Hin ?; in_cases Hin; try congruence.
  all: finish.
Qed.

Lemma in_workspace_pred_missing c cwd :
  In (EvSpawn c cwd) (fst ws) -> env_engine env = EngineExited 0 ->
  env_pred_exists env = false ->
  snd ws = inr (SysExit 1)
  /\ In (EvStderr (msg_pred_missing (prediction_path tmpdir))) (fst ws).
Proof.
  ws_unfold; intros Hin ? ?; in_cases Hin; try congruence.
  all: finish.
Qed.

Lemma in_workspace_writes ev p :
  In ev (fst ws) -> writes_file ev p ->
  ev = EvCopy model_path (path_div tmpdir "Model.py")
  \/ ev = EvWriteImage (volume_path tmpdir)
  \/ (ev = EvWriteImage (output args)
      /\ env_engine env = EngineExited 0
      /\ env_pred_exists env = true
      /\ env_read_error env (prediction_path tmpdir) = None
      /\ In (EvSpawn cmd tmpdir) (fst ws)).
Proof.
  ws_unfold; intros Hin Hw; in_cases Hin; simpl in Hw; try contradiction; auto.
  all: right; right; finish.
Qed.

Lemma in_workspace_no_tmp_event ev :
  In ev (fst ws) -> forall d, ev <> EvTmpCreate d /\ ev <> EvTmpRemove d.
Proof.
  ws_unfold; intros Hin d; in_cases Hin; split; discriminate.
Qed.

Lemma in_workspace_success :
  snd ws = inl tt -> In (EvWriteImage (output args)) (fst ws).
Proof.
  ws_unfold; intros; try discriminate; finish.
Qed.

End Workspace.

(** ** The shape of a run of [main] *)

Lemma main_with_args_cases env args names inf :
  get_models_name (task args) (fast args) = (names, inf) ->
  (Forall (pre_event args) (fst (main_with_args env args))
   /\ (snd (main_with_args env args) = inr (SysExit 1)
       \/ exists err, snd (main_with_args env args) = inr (Raised (OSError err))))
  \/
  (exists pre paths ip mp d post,
     env_exists env (input args) = true
     /\ has_supported_extension (input args) = true
     /\ has_supported_extension (output args) = true
     /\ env_which_konfai env = true
     /\ snd (download_models env names inf) = inl (paths, ip, mp)
     /\ Forall2 (fun n p => env_hub env n = inl p) names paths
     /\ env_mkdtemp env = inl d
     /\ Forall (pre_event args) pre
     /\ fst (main_with_args env args) =
          (pre ++ EvTmpCreate d :: fst (in_workspace env args paths ip mp d)
               ++ EvTmpRemove d :: post)%list
     /\ snd (main_with_args env args) = snd (in_workspace env args paths ip mp d)
     /\ Forall (fun ev => is_side_effect ev = false) post).
Proof.
  intros Hg.
  unfold main_with_args, check_input, check_output, mkdir_parents,
    ensure_konfai_available, with_TemporaryDirectory.
  rewrite Hg; simpl; crunch.
  all: try (left; split; [pre_ok|eauto]; fail).
  all: destruct (download_models_cases env names inf)
         as [[paths [ip [mp [Hd [Hf [Hm Hi]]]]]]|[w [e [Hd Hf]]]];
       rewrite Hd; simpl.
  all: try (left; split; [pre_ok|auto]; fail).
  all: try (left; split; [pre_ok|right; eexists; reflexivity]; fail).
  all: match goal with
       | H : env_mkdtemp _ = inl ?d |- _ =>
           destruct (in_workspace env args paths ip mp d) as [w [[]|st]] eqn:Ews; simpl
       end.
  all: right;
    lazymatch goal with
    | |- context [(?m :: ?A ++ EvTmpCreate ?d :: (?w ++ [EvTmpRemove ?d]) ++ ?C)%list] =>
        exists (m :: A), paths, ip, mp, d, C
    | |- context [(?m :: ?A ++ EvTmpCreate ?d :: ?w ++ [EvTmpRemove ?d])%list] =>
        exists (m :: A), paths, ip, mp, d, []
    | |- context [(?A ++ EvTmpCreate ?d :: (?w ++ [EvTmpRemove ?d]) ++ ?C)%list] =>
        exists A, paths, ip, mp, d, C
    | |- context [(?A ++ EvTmpCreate ?d :: ?w ++ [EvTmpRemove ?d])%list] =>
        exists A, paths, ip, mp, d, []
    end;
    rewrite Ews; simpl; repeat split; auto;
    first [ solve [pre_ok]
          | solve [rewrite <- ?app_assoc; reflexivity]
          | solve [repeat constructor] ].
Qed.

(** Events of a parsed run that are neither console output nor produced
    before the workspace exists come from the workspace block. *)
Lemma run_event_in_workspace env raw args names inf ev :
  parse_args env raw = inr args ->
  get_models_name (task args) (fast args) = (names, inf) ->
  In ev (run_trace env raw) -> is_side_effect ev = true -> ~ pre_event args ev ->
  exists paths ip mp d,
    snd (download_models env names inf) = inl (paths, ip, mp)
    /\ Forall2 (fun n p => env_hub env n = inl p) names paths
    /\ env_mkdtemp env = inl d
    /\ snd (main_with_args env args) = snd (in_workspace env args paths ip mp d)
    /\ (ev = EvTmpCreate d \/ ev = EvTmpRemove d
        \/ In ev (fst (in_workspace env args paths ip mp d)))
    /\ (forall x, In x (fst (in_workspace env args paths ip mp d)) ->
                  In x (run_trace env raw)).
Proof.
  intros Hp Hg Hin Hse Hpre.
  unfold run_trace in Hin; rewrite (run_parsed _ _ _ Hp) in Hin; cbn [fst] in Hin.
  apply in_app_or in Hin as [Hin|Hin].
  2:{ destruct (snd (main_with_args env args)) as [|[|]]; simpl in Hin;
      try contradiction; destruct Hin as [<-|[]]; discriminate. }
  destruct (main_with_args_cases env args names inf Hg)
    as [[Hf _]|[pre [paths [ip [mp [d [post H]]]]]]].
  - rewrite Forall_forall in Hf; exfalso; exact (Hpre (Hf ev Hin)).
  - destruct H as (_ & _ & _ & _ & Hd & Hf2 & Hm & Hpre' & Hw & Hs & Hpost).
    exists paths, ip, mp, d; repeat split; auto.
    2:{ intros x Hx; unfold run_trace; rewrite (run_parsed _ _ _ Hp), Hw; cbn [fst].
        rewrite !in_app_iff; simpl; rewrite !in_app_iff; auto. }
    rewrite Hw in Hin; apply in_app_or in Hin as [Hin|Hin].
    + rewrite Forall_forall in Hpre'; exfalso; exact (Hpre (Hpre' ev Hin)).
    + simpl in Hin; destruct Hin as [<-|Hin]; auto.
      apply in_app_or in Hin as [Hin|Hin]; auto.
      simpl in Hin; destruct Hin as [<-|Hin]; auto.
      rewrite Forall_forall in Hpost; rewrite (Hpost ev Hin) in Hse; discriminate.
Qed.

Lemma path_parent_div p c : path_parent (path_div p c) = p.
Proof. unfold path_parent, path_div; apply removelast_last. Qed.

(** The engine is started only from the workspace block, with the command
    built from the downloaded paths, in the fresh directory. *)
Lemma spawn_in_run env raw args c cwd :
  parse_args env raw = inr args ->
  In (EvSpawn c cwd) (run_trace env raw) ->
  exists paths ip mp,
    let '(names, inf) := get_models_name (task args) (fast args) in
    snd (download_models env names inf) = inl (paths, ip, mp)
    /\ Forall2 (fun n p => env_hub env n = inl p) names paths
    /\ env_mkdtemp env = inl cwd
    /\ c = build_cmd paths ip (gpu args) (cpu args) (quiet args)
    /\ snd (main_with_args env args) = snd (in_workspace env args paths ip mp cwd)
    /\ In (EvSpawn c cwd) (fst (in_workspace env args paths ip mp cwd))
    /\ (forall x, In x (fst (in_workspace env args paths ip mp cwd)) ->
                  In x (run_trace env raw)).
Proof.
  intros Hp Hin.
  destruct (get_models_name (task args) (fast args)) as [names inf] eqn:Hg.
  destruct (run_event_in_workspace env raw args names inf (EvSpawn c cwd) Hp Hg Hin
              eq_refl (fun H => H))
    as (paths & ip & mp & d & Hd & Hf & Hm & Hs & Hev & Hsub).
  destruct Hev as [Hev|[Hev|Hev]]; try discriminate.
  destruct (in_workspace_spawn env args paths ip mp d c cwd Hev) as [-> ->].
  exists paths, ip, mp; auto 8.
Qed.

Lemma build_cmd_device paths ip g c q :
  (g <> "" ->
     firstn 2 (skipn 7 (build_cmd paths ip g c q)) = ["--gpu"; g]
     /\ forall i, nth_error (build_cmd paths ip g c q) i = Some "--cpu" ->
                  i = 4 \/ i = 6 \/ i = 8)
  /\ (g = "" ->
     firstn 2 (skipn 7 (build_cmd paths ip g c q)) = ["--cpu"; str_int c]
     /\ forall i, nth_error (build_cmd paths ip g c q) i = Some "--gpu" ->
                  i = 4 \/ i = 6 \/ i = 8).
Proof.
  unfold build_cmd.
  destruct (String.eqb_spec g "") as [->|Hg]; simpl; split; intros H;
    try congruence; split; try (destruct q; reflexivity);
    intros i Hi; destruct i as [|[|[|[|[|[|[|[|[|[|[|i]]]]]]]]]]];
    destruct q; simpl in Hi; first [discriminate | lia].
Qed.

(** ** C5: model order *)

(** C5: when the engine is started, the [--MODEL] argument (index 4 of the
    command) is [":".join(models_path)], where [models_path] lists, index by
    index, the local paths that [hf_hub_download] returned for the model
    names [get_models_name] gave, in the same order. *)
Theorem model_order_preserved env raw args c cwd :
  parse_args env raw = inr args ->
  In (EvSpawn c cwd) (run_trace env raw) ->
  exists models_path inference_file_path model_path,
    snd (download_models env (fst (get_models_name (task args) (fast args)))
                             (snd (get_models_name (task args) (fast args))))
      = inl (models_path, inference_file_path, model_path)
    /\ Forall2 (fun n p => env_hub env n = inl p)
               (fst (get_models_name (task args) (fast args))) models_path
    /\ c = build_cmd models_path inference_file_path (gpu args) (cpu args) (quiet args)
    /\ nth_error c 3 = Some "--MODEL"
    /\ nth_error c 4 = Some (str_join ":" models_path).
Proof.
  intros Hp Hin.
  destruct (spawn_in_run env raw args c cwd Hp Hin) as (paths & ip & mp & H).
  destruct (get_models_name (task args) (fast args)) as [names inf]; simpl.
  destruct H as (Hd & Hf & _ & -> & _).
  exists paths, ip, mp; repeat split; auto;
    unfold build_cmd; destruct (negb _), (quiet args); reflexivity.
Qed.

Lemma model_order_preserved_witness :
  exists models_path inference_file_path model_path,
    snd (download_models (env_example 0) ["M291.pt"; "M292.pt"; "M293.pt"; "M294.pt"; "M295.pt"]
           "Prediction_CT.yml")
      = inl (models_path, inference_file_path, model_path)
    /\ Forall2 (fun n p => env_hub (env_example 0) n = inl p)
         ["M291.pt"; "M292.pt"; "M293.pt"; "M294.pt"; "M295.pt"] models_path
    /\ ["konfai"; "PREDICTION"; "-y"; "--MODEL";
        "/cache/M291.pt:/cache/M292.pt:/cache/M293.pt:/cache/M294.pt:/cache/M295.pt";
        "--config"; "/cache/Prediction_CT.yml"; "--cpu"; "1"]
       = build_cmd models_path inference_file_path "" 1 false
    /\ Some "--MODEL" = Some "--MODEL"
    /\ Some "/cache/M291.pt:/cache/M292.pt:/cache/M293.pt:/cache/M294.pt:/cache/M295.pt"
       = Some (str_join ":" models_path).
Proof.
  apply (model_order_preserved (env_example 0)
           (raw_example ["home"; "scan.nii.gz"] ["data"; "seg.nii.gz"] None false None)
           (mkArgs ["home"; "scan.nii.gz"] ["data"; "seg.nii.gz"] "total" false false "" 1)
           ["konfai"; "PREDICTION"; "-y"; "--MODEL";
            "/cache/M291.pt:/cache/M292.pt:/cache/M293.pt:/cache/M294.pt:/cache/M295.pt";
            "--config"; "/cache/Prediction_CT.yml"; "--cpu"; "1"]
           ["tmp"; "tmpab12"]); vm_compute; auto 20.
Defined.

(** ** C6: device selection *)

(** C6: in every engine command a run builds, the device pair follows the
    seven fixed leading arguments: [--gpu <list>] when the gpu string is
    non-empty, [--cpu <count>] when it is empty; the other device flag
    occurs nowhere in the command, except as the value of [--MODEL],
    [--config] or of the device option itself (indices 4, 6, 8). *)
Theorem device_selection_exclusive env raw args c cwd :
  parse_args env raw = inr args ->
  In (EvSpawn c cwd) (run_trace env raw) ->
  (gpu args <> "" ->
     firstn 2 (skipn 7 c) = ["--gpu"; gpu args]
     /\ forall i, nth_error c i = Some "--cpu" -> i = 4 \/ i = 6 \/ i = 8)
  /\ (gpu args = "" ->
     firstn 2 (skipn 7 c) = ["--cpu"; str_int (cpu args)]
     /\ forall i, nth_error c i = Some "--gpu" -> i = 4 \/ i = 6 \/ i = 8).
Proof.
  intros Hp Hin.
  destruct (spawn_in_run env raw args c cwd Hp Hin) as (paths & ip & mp & H).
  destruct (get_models_name (task args) (fast args)) as [names inf].
  destruct H as (_ & _ & _ & -> & _).
  apply build_cmd_device.
Qed.

Lemma device_selection_exclusive_witness :
  firstn 2 (skipn 7 ["konfai"; "PREDICTION"; "-y"; "--MODEL"; "/cache/M297.pt";
                     "--config"; "/cache/Prediction_CT_Fast.yml"; "--gpu"; "0,1"])
  = ["--gpu"; "0,1"].
Proof.
  apply (device_selection_exclusive (env_example 0)
           (raw_example ["home"; "scan.nii.gz"] ["data"; "seg.nii.gz"] None true (Some "0,1"))
           (mkArgs ["home"; "scan.nii.gz"] ["data"; "seg.nii.gz"] "total" true false "0,1" 1)
           ["konfai"; "PREDICTION"; "-y"; "--MODEL"; "/cache/M297.pt";
            "--config"; "/cache/Prediction_CT_Fast.yml"; "--gpu"; "0,1"]
           ["tmp"; "tmpab12"]); vm_compute; auto 20; discriminate.
Defined.

(** ** C7: the workspace is always removed *)

(** C7: whenever a run creates the temporary directory [d], the trace
    contains its removal after it, whatever the block did in between
    (staging, conversion or engine failure, missing prediction, failed
    output conversion, success), and only console output follows. *)
Theorem workspace_always_removed env raw d :
  In (EvTmpCreate d) (run_trace env raw) ->
  exists pre mid post,
    run_trace env raw = (pre ++ EvTmpCreate d :: mid ++ EvTmpRemove d :: post)%list
    /\ ~ In (EvTmpRemove d) mid
    /\ Forall (fun ev => is_side_effect ev = false) post.
Proof.
  intros Hin.
  destruct (parse_args env raw) as [msg|args] eqn:Hp.
  { unfold run_trace, run in Hin; rewrite Hp in Hin; in_cases Hin. }
  destruct (get_models_name (task args) (fast args)) as [names inf] eqn:Hg.
  unfold run_trace in *; rewrite (run_parsed _ _ _ Hp) in *; cbn [fst] in *.
  destruct (main_with_args_cases env args names inf Hg)
    as [[Hf _]|[pre [paths [ip [mp [d' [post H]]]]]]].
  - exfalso; apply in_app_or in Hin as [Hin|Hin].
    + rewrite Forall_forall in Hf; exact (Hf _ Hin).
    + destruct (snd (main_with_args env args)) as [|[|]]; in_cases Hin.
  - destruct H as (_ & _ & _ & _ & _ & _ & _ & Hpre & Hw & _ & Hpost).
    assert (d' = d) as ->.
    { rewrite Hw in Hin; rewrite !in_app_iff in Hin; simpl in Hin;
        rewrite !in_app_iff in Hin; simpl in Hin.
      destruct Hin as [[Hin|[[=]|[Hin|[[=]|Hin]]]]|Hin]; auto; exfalso.
      all: first
        [ rewrite Forall_forall in Hpre; exact (Hpre _ Hin)
        | exact (proj1 (in_workspace_no_tmp_event env args paths ip mp d' _ Hin d) eq_refl)
        | rewrite Forall_forall in Hpost; discriminate (Hpost _ Hin)
        | destruct (snd (main_with_args env args)) as [|[|]]; in_cases Hin ]. }
    exists pre, (fst (in_workspace env args paths ip mp d)),
      (post ++ traceback (snd (main_with_args env args)))%list.
    split; [rewrite Hw, <- app_assoc; simpl; rewrite <- app_assoc; reflexivity|].
    split.
    + intros Hr; apply (in_workspace_no_tmp_event env args paths ip mp d _ Hr d); auto.
    + apply Forall_app; split; auto.
      destruct (snd (main_with_args env args)) as [|[|]]; repeat constructor.
Qed.

Lemma workspace_always_removed_witness :
  exists pre mid post,
    run_trace (env_example 3)
      (raw_example ["home"; "scan.nii.gz"] ["data"; "seg.nii.gz"] None false None)
    = (pre ++ EvTmpCreate ["tmp"; "tmpab12"] :: mid ++ EvTmpRemove ["tmp"; "tmpab12"] :: post)%list
    /\ ~ In (EvTmpRemove ["tmp"; "tmpab12"]) mid
    /\ Forall (fun ev => is_side_effect ev = false) post.
Proof.
  apply (workspace_always_removed (env_example 3)
           (raw_example ["home"; "scan.nii.gz"] ["data"; "seg.nii.gz"] None false None)
           ["tmp"; "tmpab12"]); vm_compute; auto 20.
Defined.

(** ** C8: the user's output file *)

(** C8: a run writes the file at the user's output path only through the
    final [sitk.WriteImage(seg, str(args.output))], which is reached only
    after the engine exited with 0 and the prediction was found and read:
    when any earlier step fails, that file is neither written nor
    overwritten.  The hypothesis is the contract of [mkdtemp]: the output's
    parent directory exists when the temporary directory is created, so the
    fresh directory is not that directory nor one of its ancestors. *)
Theorem output_written_only_by_final_conversion env raw args ev :
  parse_args env raw = inr args ->
  (forall d, env_mkdtemp env = inl d ->
     forall q, path_parent (output args) <> (d ++ q)%list) ->
  In ev (run_trace env raw) ->
  writes_file ev (output args) ->
  ev = EvWriteImage (output args)
  /\ env_engine env = EngineExited 0
  /\ env_pred_exists env = true
  /\ exists d, env_mkdtemp env = inl d
       /\ env_read_error env (prediction_path d) = None
       /\ exists c, In (EvSpawn c d) (run_trace env raw).
Proof.
  intros Hp Hfresh Hin Hw.
  assert (is_side_effect ev = true /\ ~ pre_event args ev) as [Hse Hpre]
    by (destruct ev; simpl in Hw; try contradiction; simpl; auto).
  destruct (get_models_name (task args) (fast args)) as [names inf] eqn:Hg.
  destruct (run_event_in_workspace env raw args names inf ev Hp Hg Hin Hse Hpre)
    as (paths & ip & mp & d & _ & _ & Hm & _ & Hev & Hsub).
  destruct Hev as [->|[->|Hev]]; try (simpl in Hw; contradiction).
  destruct (in_workspace_writes env args paths ip mp d ev (output args) Hev Hw)
    as [->|[->|(-> & He & Hpe & Hr & Hs)]]; simpl in Hw.
  - exfalso; apply (Hfresh d Hm []).
    rewrite <- Hw, path_parent_div, app_nil_r; reflexivity.
  - exfalso; apply (Hfresh d Hm ["Dataset"; "P001"]).
    rewrite <- Hw; unfold volume_path; rewrite path_parent_div.
    unfold dataset_dir, path_div; rewrite <- app_assoc; reflexivity.
  - repeat split; auto; exists d; repeat split; eauto.
Qed.

Lemma output_written_only_by_final_conversion_witness :
  EvWriteImage ["data"; "seg.nii.gz"] = EvWriteImage ["data"; "seg.nii.gz"]
  /\ env_engine (env_example 0) = EngineExited 0
  /\ env_pred_exists (env_example 0) = true
  /\ exists d, env_mkdtemp (env_example 0) = inl d
       /\ env_read_error (env_example 0) (prediction_path d) = None
       /\ exists c, In (EvSpawn c d)
            (run_trace (env_example 0)
               (raw_example ["home"; "scan.nii.gz"] ["data"; "seg.nii.gz"] None false None)).
Proof.
  apply (output_written_only_by_final_conversion (env_example 0)
           (raw_example ["home"; "scan.nii.gz"] ["data"; "seg.nii.gz"] None false None)
           (mkArgs ["home"; "scan.nii.gz"] ["data"; "seg.nii.gz"] "total" false false "" 1)
           (EvWriteImage ["data"; "seg.nii.gz"])).
  - vm_compute; reflexivity.
  - intros d Hd q; vm_compute in Hd; injection Hd as <-; discriminate.
  - vm_compute; auto 20.
  - reflexivity.
Defined.

(** ** C9: missing prediction *)

(** C9: the prediction is expected at the fixed path
    [<tmpdir>/Predictions/TotalSegmentator/Dataset/P001/Seg.mha], where
    [<tmpdir>] is the engine's working directory; if the engine ran, exited
    with 0 and that file is absent, the run prints a message naming that
    path and exits with status 1. *)
Theorem missing_prediction_reported env raw args c d :
  parse_args env raw = inr args ->
  In (EvSpawn c d) (run_trace env raw) ->
  env_engine env = EngineExited 0 ->
  env_pred_exists env = false ->
  run_status env raw = 1%Z
  /\ In (EvStderr (msg_pred_missing (prediction_path d))) (run_trace env raw)
  /\ prediction_path d =
       (d ++ ["Predictions"; "TotalSegmentator"; "Dataset"; "P001"; "Seg.mha"])%list.
Proof.
  intros Hp Hin He Hpe.
  destruct (spawn_in_run env raw args c d Hp Hin) as (paths & ip & mp & H).
  destruct (get_models_name (task args) (fast args)) as [names inf].
  destruct H as (_ & _ & _ & _ & Hs & Hsp & Hsub).
  destruct (in_workspace_pred_missing env args paths ip mp d c d Hsp He Hpe) as [Hr Hm].
  split; [|split; auto].
  - unfold run_status; rewrite (run_parsed _ _ _ Hp); simpl; rewrite Hs, Hr; reflexivity.
  - unfold prediction_path, path_div; rewrite <- !app_assoc; reflexivity.
Qed.

Lemma missing_prediction_reported_witness :
  run_status env_engine_missing_pred
    (raw_example ["home"; "scan.nii.gz"] ["data"; "seg.nii.gz"] None false None) = 1%Z
  /\ In (EvStderr (msg_pred_missing (prediction_path ["tmp"; "tmpab12"])))
        (run_trace env_engine_missing_pred
           (raw_example ["home"; "scan.nii.gz"] ["data"; "seg.nii.gz"] None false None))
  /\ prediction_path ["tmp"; "tmpab12"] =
       (["tmp"; "tmpab12"] ++ ["Predictions"; "TotalSegmentator"; "Dataset"; "P001"; "Seg.mha"])%list.
Proof.
  apply (missing_prediction_reported env_engine_missing_pred
           (raw_example ["home"; "scan.nii.gz"] ["data"; "seg.nii.gz"] None false None)
           (mkArgs ["home"; "scan.nii.gz"] ["data"; "seg.nii.gz"] "total" false false "" 1)
           ["konfai"; "PREDICTION"; "-y"; "--MODEL";
            "/cache/M291.pt:/cache/M292.pt:/cache/M293.pt:/cache/M294.pt:/cache/M295.pt";
            "--config"; "/cache/Prediction_CT.yml"; "--cpu"; "1"]
           ["tmp"; "tmpab12"]); vm_compute; auto 20.
Defined.

(** ** C2: exit statuses *)

(** A parsed run either stops before the workspace block with status 1,
    or ends the way that block ends. *)
Lemma run_workspace_cases env raw args :
  parse_args env raw = inr args ->
  (snd (main_with_args env args) = inr (SysExit 1)
   \/ exists err, snd (main_with_args env args) = inr (Raised (OSError err)))
  \/ exists paths ip mp d,
       snd (main_with_args env args) = snd (in_workspace env args paths ip mp d)
       /\ (forall x, In x (fst (in_workspace env args paths ip mp d)) ->
                     In x (run_trace env raw)).
Proof.
  intros Hp.
  destruct (get_models_name (task args) (fast args)) as [names inf] eqn:Hg.
  destruct (main_with_args_cases env args names inf Hg)
    as [[_ Hs]|[pre [paths [ip [mp [d [post H]]]]]]]; [left; exact Hs|right].
  destruct H as (_ & _ & _ & _ & _ & _ & _ & _ & Hw & Hs & _).
  exists paths, ip, mp, d; split; auto.
  intros x Hx; unfold run_trace; rewrite (run_parsed _ _ _ Hp), Hw; cbn [fst].
  rewrite !in_app_iff; simpl; rewrite !in_app_iff; auto.
Qed.

Lemma msg_engine_failed_distinct rc :
  msg_engine_failed rc <> msg_engine_not_found
  /\ msg_engine_failed rc <> msg_konfai_not_in_path.
Proof.
  unfold msg_engine_failed, msg_engine_not_found, msg_konfai_not_in_path.
  generalize (str_int rc ++ "."); intros s.
  split; intros H; apply (f_equal (substring 0 12)) in H; vm_compute in H; discriminate.
Qed.

(** C2 (counterexample): a task outside the [choices] of [-ta/--task] is
    rejected by argparse, and the run exits with status 2, not 1. *)
Lemma exit_status_invalid_task :
  check_task_choice
    (raw_example ["home"; "scan.nii.gz"] ["data"; "seg.nii.gz"] (Some "foo") false None)
    = inl "error: argument -ta/--task: invalid choice: foo"
  /\ run_status (env_example 0)
       (raw_example ["home"; "scan.nii.gz"] ["data"; "seg.nii.gz"] (Some "foo") false None)
     = 2%Z.
Proof. split; vm_compute; reflexivity. Qed.

Lemma land_255_zero rc :
  (-256 < rc < 256)%Z -> Z.land rc 255 = 0%Z -> rc = 0%Z.
Proof.
  intros Hr H; change 255%Z with (Z.ones 8) in H; rewrite Z.land_ones in H by lia.
  replace (2 ^ 8)%Z with 256%Z in H by reflexivity.
  pose proof (Z.div_mod rc 256 ltac:(lia)) as Hd; rewrite H in Hd; lia.
Qed.

Lemma land_255_exit rc :
  ((0 < rc < 256)%Z -> Z.land rc 255 = rc)
  /\ ((-256 < rc < 0)%Z -> Z.land rc 255 = (256 + rc)%Z).
Proof.
  change 255%Z with (Z.ones 8); rewrite Z.land_ones by lia.
  replace (2 ^ 8)%Z with 256%Z by reflexivity.
  pose proof (Z.div_mod rc 256 ltac:(lia)) as Hd.
  pose proof (Z.mod_pos_bound rc 256 ltac:(lia)) as Hb.
  split; intros; lia.
Qed.

(** C2 (amended): argparse usage errors exit with status 2.  Once the
    arguments parse: when the engine was started and exited with a nonzero
    [rc], the message reports [rc] and the status is [rc & 0xff], which is
    [rc] for a return code 1..255 and [256 + rc] for an engine killed by a
    signal ([rc] = minus the signal number); for return codes in the range
    the system reports (-255..255) the status is 0 exactly when [main]
    returns, and then the output was written; every other failure
    (validation, directory creation, missing [konfai], download, workspace
    staging, engine not found, missing or unreadable prediction, output
    conversion, uncaught [OSError]) ends with status 1.  A [konfai] missing
    from [PATH] and an engine executable that cannot be found are each
    reported with their own message, and neither message is the one for an
    engine that exited nonzero. *)
Theorem exit_code_contract env raw :
  (forall msg, parse_args env raw = inl msg -> run_status env raw = 2%Z)
  /\ (forall args, parse_args env raw = inr args ->
      (returncode_in_range env ->
         (run_status env raw = 0%Z <-> snd (main_with_args env args) = inl tt))
      /\ (returncode_in_range env -> run_status env raw = 0%Z ->
          In (EvWriteImage (output args)) (run_trace env raw))
      /\ (forall c d rc, In (EvSpawn c d) (run_trace env raw) ->
            env_engine env = EngineExited rc -> rc <> 0%Z ->
            run_status env raw = Z.land rc 255
            /\ ((0 < rc < 256)%Z -> run_status env raw = rc)
            /\ ((-256 < rc < 0)%Z -> run_status env raw = (256 + rc)%Z)
            /\ In (EvStderr (msg_engine_failed rc)) (run_trace env raw))
      /\ ((forall c d rc, In (EvSpawn c d) (run_trace env raw) ->
             env_engine env = EngineExited rc -> rc = 0%Z) ->
          run_status env raw <> 0%Z -> run_status env raw = 1%Z)
      /\ (env_exists env (input args) = true ->
          has_supported_extension (input args) = true ->
          snd (mkdir_parents env (path_parent (output args))) = inl tt ->
          has_supported_extension (output args) = true ->
          env_which_konfai env = false ->
          run_status env raw = 1%Z
          /\ In (EvStderr msg_konfai_not_in_path) (run_trace env raw))
      /\ (forall c d, In (EvSpawn c d) (run_trace env raw) ->
            env_engine env = EngineNotFound ->
            run_status env raw = 1%Z
            /\ In (EvStderr msg_engine_not_found) (run_trace env raw)))
  /\ (forall rc, msg_engine_failed rc <> msg_engine_not_found
                 /\ msg_engine_failed rc <> msg_konfai_not_in_path).
Proof.
  split; [|split; [|exact msg_engine_failed_distinct]].
  { intros msg Hp; unfold run_status, run; rewrite Hp; reflexivity. }
  intros args Hp.
  assert (Hst : run_status env raw = exit_status (snd (main_with_args env args)))
    by (unfold run_status; rewrite (run_parsed _ _ _ Hp); reflexivity).
  assert (Hsub : forall x, In x (fst (main_with_args env args)) -> In x (run_trace env raw))
    by (intros x Hx; unfold run_trace; rewrite (run_parsed _ _ _ Hp); cbn [fst];
        apply in_or_app; auto).
  assert (Hzero : returncode_in_range env ->
                  run_status env raw = 0%Z -> snd (main_with_args env args) = inl tt).
  { rewrite Hst; intros Hrange H0.
    destruct (run_workspace_cases env raw args Hp)
      as [[Hs|[err Hs]]|(paths & ip & mp & d & Hs & _)]; rewrite Hs in *;
      try (simpl in H0; discriminate).
    destruct (in_workspace_status env args paths ip mp d)
      as [Hw|[Hw|[[err Hw]|(rc & Hw & He & Hrc & _)]]]; rewrite Hw in *;
      simpl in H0; try congruence.
    exfalso; exact (Hrc (land_255_zero rc (Hrange rc He) H0)). }
  split; [intros Hrange; split; [exact (Hzero Hrange)|intros H; rewrite Hst, H; reflexivity]|].
  split.
  { intros Hrange H0; apply (Hzero Hrange) in H0.
    destruct (run_workspace_cases env raw args Hp)
      as [[Hs|[err Hs]]|(paths & ip & mp & d & Hs & Hin)]; rewrite Hs in *;
      try discriminate.
    apply Hin, in_workspace_success; exact H0. }
  split.
  { intros c d rc Hin He Hrc.
    destruct (spawn_in_run env raw args c d Hp Hin) as (paths & ip & mp & H).
    destruct (get_models_name (task args) (fast args)) as [names inf].
    destruct H as (_ & _ & _ & _ & Hs & Hsp & Hin').
    destruct (in_workspace_engine_failed env args paths ip mp d c d rc Hsp He Hrc)
      as [Hw Hm].
    assert (Hl : run_status env raw = Z.land rc 255) by (rewrite Hst, Hs, Hw; reflexivity).
    destruct (land_255_exit rc) as [Hpos Hneg].
    rewrite Hl; split; [reflexivity|]; split; [exact Hpos|]; split; [exact Hneg|auto]. }
  split.
  { intros Hnz H1; rewrite Hst in *.
    destruct (run_workspace_cases env raw args Hp)
      as [[Hs|[err Hs]]|(paths & ip & mp & d & Hs & Hin)]; rewrite Hs in *;
      try reflexivity.
    destruct (in_workspace_status env args paths ip mp d)
      as [Hw|[Hw|[[err Hw]|(rc & Hw & He & Hrc & Hsp)]]]; rewrite Hw in *;
      try reflexivity.
    - simpl in H1; congruence.
    - exfalso; exact (Hrc (Hnz _ _ rc (Hin _ Hsp) He)). }
  split.
  { intros He Hi Hmk Ho Hk.
    rewrite Hst.
    assert (Hm : exists w, mkdir_parents env (path_parent (output args)) = (w, inl tt))
      by (destruct (mkdir_parents env (path_parent (output args))) as [w r];
          simpl in Hmk; subst; eauto).
    destruct Hm as [w Hm].
    assert (Hmain : snd (main_with_args env args) = inr (SysExit 1)
                    /\ In (EvStderr msg_konfai_not_in_path) (fst (main_with_args env args))).
    { unfold main_with_args, check_input, check_output, ensure_konfai_available.
      rewrite He, Hi, Ho, Hk, Hm; simpl.
      destruct (get_models_name (task args) (fast args)); simpl.
      rewrite ?app_nil_r; split; [reflexivity|finish]. }
    destruct Hmain as [Hs Hin]; rewrite Hs; split; auto. }
  intros c d Hin He.
  destruct (spawn_in_run env raw args c d Hp Hin) as (paths & ip & mp & H).
  destruct (get_models_name (task args) (fast args)) as [names inf].
  destruct H as (_ & _ & _ & _ & Hs & Hsp & Hin').
  destruct (in_workspace_engine_not_found env args paths ip mp d c d Hsp He) as [Hw Hm].
  rewrite Hst, Hs, Hw; auto.
Qed.

Lemma exit_code_contract_witness :
  run_status (env_example (-9))
    (raw_example ["home"; "scan.nii.gz"] ["data"; "seg.nii.gz"] None false None)
    = Z.land (-9) 255
  /\ ((0 < -9 < 256)%Z -> run_status (env_example (-9))
        (raw_example ["home"; "scan.nii.gz"] ["data"; "seg.nii.gz"] None false None) = (-9)%Z)
  /\ ((-256 < -9 < 0)%Z -> run_status (env_example (-9))
        (raw_example ["home"; "scan.nii.gz"] ["data"; "seg.nii.gz"] None false None)
        = (256 + -9)%Z)
  /\ In (EvStderr (msg_engine_failed (-9)))
        (run_trace (env_example (-9))
           (raw_example ["home"; "scan.nii.gz"] ["data"; "seg.nii.gz"] None false None)).
Proof.
  destruct (exit_code_contract (env_example (-9))
              (raw_example ["home"; "scan.nii.gz"] ["data"; "seg.nii.gz"] None false None))
    as [_ [H _]].
  destruct (H (mkArgs ["home"; "scan.nii.gz"] ["data"; "seg.nii.gz"] "total" false false "" 1)
              (eq_refl _)) as (_ & _ & Heng & _).
  apply (Heng ["konfai"; "PREDICTION"; "-y"; "--MODEL";
               "/cache/M291.pt:/cache/M292.pt:/cache/M293.pt:/cache/M294.pt:/cache/M295.pt";
               "--config"; "/cache/Prediction_CT.yml"; "--cpu"; "1"]
              ["tmp"; "tmpab12"] (-9)%Z).
  - vm_compute; auto 20.
  - reflexivity.
  - discriminate.
Defined.

(** * Further properties of [main] *)

Arguments in_workspace : simpl never.

(** ** Trace orderings and projections *)

Lemma occurs_before_head a b l : In b l -> occurs_before a b (a :: l).
Proof.
  intros H; apply in_split in H as (p & q & ->).
  exists (a :: p), q; split; [reflexivity|left; reflexivity].
Qed.

Lemma occurs_before_cons a b x l : occurs_before a b l -> occurs_before a b (x :: l).
Proof. intros (p & q & -> & H); exists (x :: p), q; split; [reflexivity|right; exact H]. Qed.

Lemma occurs_before_app a b l m r :
  occurs_before a b m -> occurs_before a b (l ++ m ++ r).
Proof.
  intros (p & q & -> & H); exists (l ++ p)%list, (q ++ r)%list.
  split; [rewrite <- !app_assoc; reflexivity|apply in_or_app; right; exact H].
Qed.

Lemma downloads_of_app l r : downloads_of (l ++ r) = (downloads_of l ++ downloads_of r)%list.
Proof. apply flat_map_app. Qed.


Lemma downloads_of_none l :
  (forall ev, In ev l -> forall f, ev <> EvHubDownload f) -> downloads_of l = [].
Proof.
  induction l as [|ev l IH]; intros H; [reflexivity|].
  unfold downloads_of; simpl; fold (downloads_of l).
  destruct ev as [| | |f| | | | |]; try (apply IH; intros; apply H; right; assumption).
  exfalso; apply (H _ (or_introl eq_refl) f); reflexivity.
Qed.

(** ** The downloads, stopping at the first failure *)

Lemma Forall2_hub_ok env names paths :
  Forall2 (fun n p => env_hub env n = inl p) names paths ->
  Forall (fun f => exists p, env_hub env f = inl p) names.
Proof. induction 1; constructor; eauto. Qed.

Lemma download_loop_steps env names acc :
  (exists paths,
      download_loop env names acc = (map EvHubDownload names, inl (acc ++ paths)%list)
      /\ Forall2 (fun n p => env_hub env n = inl p) names paths)
  \/ (exists fs g rest err,
      names = (fs ++ g :: rest)%list
      /\ Forall (fun f => exists p, env_hub env f = inl p) fs
      /\ env_hub env g = inr err
      /\ download_loop env names acc =
           (map EvHubDownload (fs ++ [g]), inr (Raised (HubError err)))).
Proof.
  revert acc; induction names as [|n names IH]; intros acc; simpl.
  - left; exists []; rewrite app_nil_r; auto.
  - unfold hf_hub_download; destruct (env_hub env n) as [p|err] eqn:Hn; simpl.
    + destruct (IH (acc ++ [p])%list)
        as [[paths [-> Hf]]|(fs & g & rest & err & -> & Hok & Hg & ->)]; simpl.
      * left; exists (p :: paths); rewrite <- app_assoc; auto.
      * right; exists (n :: fs), g, rest, err; repeat split; auto.
        constructor; eauto.
    + right; exists [], n, names, err; repeat split; auto.
Qed.

Lemma download_models_steps env names inf :
  (exists paths ip mp,
      download_models env names inf =
        (map EvHubDownload (names ++ ["Model.py"; inf]), inl (paths, ip, mp))
      /\ Forall2 (fun n p => env_hub env n = inl p) names paths
      /\ env_hub env "Model.py" = inl mp
      /\ env_hub env inf = inl ip)
  \/ (exists fs g rest err,
      (names ++ ["Model.py"; inf])%list = (fs ++ g :: rest)%list
      /\ Forall (fun f => exists p, env_hub env f = inl p) fs
      /\ env_hub env g = inr err
      /\ download_models env names inf =
           ((map EvHubDownload (fs ++ [g])
               ++ [EvStderr (msg_download_failed (HubError err))])%list,
            inr (SysExit 1))).
Proof.
  unfold download_models.
  destruct (download_loop_steps env names [])
    as [[paths [-> Hf]]|(fs & g & rest & err & -> & Hok & Hg & ->)]; simpl.
  - unfold hf_hub_download.
    destruct (env_hub env "Model.py") as [mp|err] eqn:Hm; simpl.
    + destruct (env_hub env inf) as [ip|err] eqn:Hi; simpl.
      * left; exists paths, ip, mp; rewrite map_app, <- ?app_assoc; auto.
      * right; exists (names ++ ["Model.py"])%list, inf, [], err.
        split; [rewrite <- app_assoc; reflexivity|].
        split; [apply Forall_app; split; [eapply Forall2_hub_ok; eauto|repeat constructor; eauto]|].
        split; [exact Hi|].
        rewrite !map_app, <- !app_assoc; reflexivity.
    + right; exists names, "Model.py", [inf], err.
      split; [reflexivity|].
      split; [eapply Forall2_hub_ok; eauto|].
      split; [exact Hm|].
      rewrite !map_app, <- !app_assoc; reflexivity.
  - right; exists fs, g, (rest ++ ["Model.py"; inf])%list, err.
    split; [rewrite <- app_assoc; reflexivity|auto].
Qed.

(** ** [main] stage by stage *)

(** [Forall] over the messages and directory creations of the checks. *)
Ltac early_ok :=
  repeat match goal with
  | |- Forall _ (_ ++ _) => apply Forall_app; split
  | |- Forall _ (_ :: _) => constructor
  | |- Forall _ [] => constructor
  | H : Forall _ ?w |- Forall _ ?w => eapply Forall_impl; [|exact H]; intros ? ->; right; reflexivity
  | |- _ \/ _ => first [left; eexists; reflexivity | right; reflexivity]
  end.

Lemma check_input_cases env args :
  (check_input env args = ([], inl tt)
   /\ env_exists env (input args) = true
   /\ has_supported_extension (input args) = true)
  \/ (exists w, check_input env args = (w, inr (SysExit 1))
      /\ Forall (fun ev => exists m, ev = EvStderr m) w).
Proof.
  unfold check_input.
  destruct (env_exists env (input args)), (has_supported_extension (input args)); simpl;
    first [solve [left; repeat split] | right; eexists; split; [reflexivity|repeat constructor; eauto]].
Qed.

Lemma check_output_cases env args :
  (exists w, check_output env args = (w, inl tt)
   /\ has_supported_extension (output args) = true
   /\ Forall (fun ev => ev = EvMkdirs (path_parent (output args))) w)
  \/ (exists w, check_output env args = (w, inr (SysExit 1))
      /\ Forall (fun ev => (exists m, ev = EvStderr m)
                           \/ ev = EvMkdirs (path_parent (output args))) w).
Proof.
  unfold check_output, mkdir_parents.
  destruct (env_is_dir env (path_parent (output args)));
    [|destruct (env_mkdir_error env (path_parent (output args)))];
    destruct (has_supported_extension (output args)); simpl;
    first [solve [left; eexists; split; [reflexivity|split; [reflexivity|repeat constructor]]]
          | right; eexists; split; [reflexivity|early_ok]].
Qed.

(** [main] after argument parsing: it stops in the checks (console output and
    the output's parent directory only), or it passes them and then stops
    at the first failed download, or fails to create the temporary
    directory, or runs the workspace block and prints the final message. *)
Lemma main_with_args_steps env args names inf :
  get_models_name (task args) (fast args) = (names, inf) ->
  (exists w, main_with_args env args = (w, inr (SysExit 1))
     /\ Forall (fun ev => (exists m, ev = EvStderr m)
                          \/ ev = EvMkdirs (path_parent (output args))) w)
  \/ (exists w0,
       env_exists env (input args) = true
       /\ has_supported_extension (input args) = true
       /\ has_supported_extension (output args) = true
       /\ env_which_konfai env = true
       /\ Forall (fun ev => ev = EvMkdirs (path_parent (output args))) w0
       /\ ((exists fs g rest err,
              (names ++ ["Model.py"; inf])%list = (fs ++ g :: rest)%list
              /\ Forall (fun f => exists p, env_hub env f = inl p) fs
              /\ env_hub env g = inr err
              /\ main_with_args env args =
                   ((w0 ++ map EvHubDownload (fs ++ [g])
                        ++ [EvStderr (msg_download_failed (HubError err))])%list,
                    inr (SysExit 1)))
           \/ (exists paths ip mp,
              Forall2 (fun n p => env_hub env n = inl p) names paths
              /\ snd (download_models env names inf) = inl (paths, ip, mp)
              /\ env_hub env "Model.py" = inl mp
              /\ env_hub env inf = inl ip
              /\ ((exists e, env_mkdtemp env = inr e
                     /\ main_with_args env args =
                          ((w0 ++ map EvHubDownload (names ++ ["Model.py"; inf]))%list,
                           inr (Raised (OSError e))))
                  \/ (exists d, env_mkdtemp env = inl d
                     /\ main_with_args env args =
                          ((w0 ++ map EvHubDownload (names ++ ["Model.py"; inf])
                               ++ EvTmpCreate d :: fst (in_workspace env args paths ip mp d)
                               ++ EvTmpRemove d
                               :: match snd (in_workspace env args paths ip mp d) with
                                  | inl _ => if quiet args then []
                                             else [EvStdout (msg_done (output args))]
                                  | inr _ => []
                                  end)%list,
                           snd (in_workspace env args paths ip mp d))))))).
Proof.
  intros Hg.
  remember (main_with_args env args) as r eqn:Hr; unfold main_with_args in Hr.
  destruct (check_input_cases env args) as [(Hci & He & Hi)|(w & Hci & Hw)];
    rewrite Hci in Hr; simpl in Hr.
  2:{ left; exists w; split; [exact Hr|]. eapply Forall_impl; [|exact Hw]; simpl; auto. }
  destruct (check_output_cases env args) as [(w0 & Hco & Ho & Hw0)|(w & Hco & Hw)];
    rewrite Hco in Hr; simpl in Hr.
  2:{ left; exists w; split; [exact Hr|exact Hw]. }
  unfold ensure_konfai_available in Hr.
  destruct (env_which_konfai env) eqn:Hk; simpl in Hr.
  2:{ left; eexists; split; [exact Hr|early_ok]. }
  right; exists w0; do 5 (split; [first [assumption|reflexivity]|]).
  rewrite Hg in Hr; simpl in Hr.
  destruct (download_models_steps env names inf)
    as [(paths & ip & mp & Hd & Hf & Hm & Hi')|(fs & g & rest & err & HL & Hok & Hgf & Hd)];
    rewrite Hd in Hr; simpl in Hr.
  2:{ left; exists fs, g, rest, err; do 3 (split; [assumption|]).
      subst r; rewrite ?app_nil_r; reflexivity. }
  right; exists paths, ip, mp; split; [assumption|]; split; [rewrite Hd; reflexivity|].
  do 2 (split; [assumption|]).
  unfold with_TemporaryDirectory in Hr.
  destruct (env_mkdtemp env) as [d|e] eqn:Ht; simpl in Hr.
  2:{ left; exists e; split; [reflexivity|]. subst r; rewrite ?app_nil_r; reflexivity. }
  right; exists d; split; [reflexivity|].
  destruct (in_workspace env args paths ip mp d) as [w [[]|st]]; simpl in Hr; simpl.
  - destruct (quiet args); simpl in Hr; subst r; rewrite <- ?app_assoc; simpl;
      rewrite <- ?app_assoc; reflexivity.
  - subst r; rewrite <- ?app_assoc; simpl; rewrite <- ?app_assoc, ?app_nil_r; reflexivity.
Qed.

(** ** The workspace block, continued *)

Ltac ws_open :=
  unfold in_workspace, mkdir_parents, copy2, ReadImage, WriteImage, subprocess_run;
  simpl; crunch.

(** A concrete list is [occurs_before a b]: find [a], then [b] after it. *)
Ltac before_ok :=
  repeat first [ solve [apply occurs_before_head; finish] | apply occurs_before_cons ].

Section Workspace2.
Variables (env : Env) (args : Args) (models_path : list string)
  (inference_file_path model_path : string) (tmpdir : Path).

Local Abbreviation ws := (in_workspace env args models_path inference_file_path model_path tmpdir).
Local Abbreviation cmd := (build_cmd models_path inference_file_path (gpu args) (cpu args) (quiet args)).

Lemma in_workspace_events ev :
  In ev (fst ws) ->
  ev = EvMkdirs (dataset_dir tmpdir)
  \/ ev = EvCopy model_path (path_div tmpdir "Model.py")
  \/ ev = EvWriteImage (volume_path tmpdir)
  \/ ev = EvWriteImage (output args)
  \/ ev = EvSpawn cmd tmpdir
  \/ (exists m, ev = EvStderr m).
Proof.
  ws_open; intros Hin; in_cases Hin;
    first [solve [finish] | do 5 right; eexists; reflexivity].
Qed.

Lemma in_workspace_staging c cwd :
  In (EvSpawn c cwd) (fst ws) ->
  occurs_before (EvCopy model_path (path_div tmpdir "Model.py")) (EvSpawn cmd tmpdir) (fst ws)
  /\ occurs_before (EvWriteImage (volume_path tmpdir)) (EvSpawn cmd tmpdir) (fst ws)
  /\ env_copy_error env = None
  /\ env_read_error env (input args) = None
  /\ env_write_error env (volume_path tmpdir) = None.
Proof.
  ws_open; intros Hin; in_cases Hin; repeat split; auto; before_ok.
Qed.

Lemma in_workspace_copy_failed e :
  snd (mkdir_parents env (dataset_dir tmpdir)) = inl tt ->
  env_copy_error env = Some e ->
  snd ws = inr (SysExit 1)
  /\ In (EvStderr (msg_cannot_copy (OSError e))) (fst ws)
  /\ forall c cwd, ~ In (EvSpawn c cwd) (fst ws).
Proof.
  ws_open; intros H1 H2; try discriminate; try congruence;
    injection H2 as ->;
    (split; [reflexivity|split; [finish|intros c cwd Hin; in_cases Hin]]).
Qed.

Lemma in_workspace_convert_failed e :
  snd (mkdir_parents env (dataset_dir tmpdir)) = inl tt ->
  env_copy_error env = None ->
  env_read_error env (input args) = Some e
  \/ (env_read_error env (input args) = None
      /\ env_write_error env (volume_path tmpdir) = Some e) ->
  snd ws = inr (SysExit 1)
  /\ In (EvStderr (msg_convert_in (input args) (volume_path tmpdir) (ImageError e))) (fst ws)
  /\ forall c cwd, ~ In (EvSpawn c cwd) (fst ws).
Proof.
  ws_open; intros H1 H2 H3; try discriminate; try congruence;
    destruct H3 as [H3|[H3 H4]]; try congruence;
    repeat match goal with H : Some _ = Some _ |- _ => injection H as -> end;
    split; try reflexivity; split; try finish; intros c cwd Hin; in_cases Hin.
Qed.

End Workspace2.

(** ** A whole run, around the workspace block *)



Lemma run_trace_shape env raw args names inf :
  parse_args env raw = inr args ->
  get_models_name (task args) (fast args) = (names, inf) ->
  (Forall (early_event args) (run_trace env raw) /\ run_status env raw = 1%Z)
  \/ (exists paths ip mp d pre post,
        snd (download_models env names inf) = inl (paths, ip, mp)
        /\ env_mkdtemp env = inl d
        /\ run_trace env raw =
             (pre ++ EvTmpCreate d :: fst (in_workspace env args paths ip mp d)
                  ++ EvTmpRemove d :: post)%list
        /\ run_status env raw = exit_status (snd (in_workspace env args paths ip mp d))
        /\ Forall (early_event args) pre
        /\ Forall (fun ev => (exists m, ev = EvStderr m)
                             \/ (ev = EvStdout (msg_done (output args))
                                 /\ quiet args = false
                                 /\ snd (in_workspace env args paths ip mp d) = inl tt)) post).
Proof.
  intros Hp Hg; unfold run_trace, run_status; rewrite (run_parsed _ _ _ Hp); cbn [fst snd].
  destruct (main_with_args_steps env args names inf Hg)
    as [(w & Hm & Hw)|(w0 & _ & _ & _ & _ & Hw0 & Hrest)].
  { left; rewrite Hm; cbn [fst snd traceback exit_status]; rewrite app_nil_r; split; [|reflexivity].
    eapply Forall_impl; [|exact Hw]; unfold early_event; tauto. }
  assert (H0 : Forall (early_event args) w0)
    by (eapply Forall_impl; [|exact Hw0]; unfold early_event; intros ? ->; auto).
  assert (Hmap : forall l, Forall (early_event args) (map EvHubDownload l))
    by (intros l; apply Forall_map, Forall_forall; intros; unfold early_event; eauto).
  destruct Hrest as [(fs & g & rest & err & _ & _ & _ & Hm)
                    |(paths & ip & mp & _ & Hd & _ & _ & [(e & _ & Hm)|(d & Ht & Hm)])];
    rewrite Hm; cbn [fst snd traceback exit_status].
  - left; split; [|reflexivity]; rewrite app_nil_r.
    repeat (apply Forall_app; split); auto; repeat constructor; unfold early_event; eauto.
  - left; split; [|reflexivity].
    repeat (apply Forall_app; split); auto; repeat constructor; unfold early_event; eauto.
  - right.
    exists paths, ip, mp, d, (w0 ++ map EvHubDownload (names ++ ["Model.py"; inf]))%list,
      ((match snd (in_workspace env args paths ip mp d) with
        | inl _ => if quiet args then [] else [EvStdout (msg_done (output args))]
        | inr _ => []
        end) ++ traceback (snd (in_workspace env args paths ip mp d)))%list.
    split; [exact Hd|]; split; [exact Ht|]; split.
    { rewrite <- !app_assoc; simpl; rewrite <- !app_assoc; reflexivity. }
    split; [reflexivity|]; split; [apply Forall_app; split; auto|].
    destruct (snd (in_workspace env args paths ip mp d)) as [[]|[c|ex]] eqn:Hs;
      [destruct (quiet args) eqn:Hq|..]; simpl; repeat (apply Forall_cons || apply Forall_nil); eauto 6.
Qed.

Lemma occurs_before_app_l a b l m : occurs_before a b m -> occurs_before a b (l ++ m).
Proof. intros H; rewrite <- (app_nil_r m); apply occurs_before_app; exact H. Qed.

(** Where an event of a run around the workspace block comes from. *)
Lemma shape_in args pre d w post ev :
  Forall (early_event args) pre ->
  Forall (fun x => (exists m, x = EvStderr m) \/ (exists m, x = EvStdout m)) post ->
  In ev (pre ++ EvTmpCreate d :: w ++ EvTmpRemove d :: post)%list ->
  early_event args ev \/ ev = EvTmpCreate d \/ In ev w \/ ev = EvTmpRemove d
  \/ (exists m, ev = EvStderr m) \/ (exists m, ev = EvStdout m).
Proof.
  intros Hpre Hpost Hin; rewrite Forall_forall in Hpre, Hpost.
  rewrite in_app_iff in Hin; simpl in Hin; rewrite in_app_iff in Hin; simpl in Hin.
  destruct Hin as [Hin|[<-|[Hin|[<-|Hin]]]]; auto.
  destruct (Hpost _ Hin); auto 6.
Qed.

Lemma post_events args (P : Prop) post :
  Forall (fun ev => (exists m, ev = EvStderr m)
                    \/ (ev = EvStdout (msg_done (output args)) /\ P)) post ->
  Forall (fun x => (exists m, x = EvStderr m) \/ (exists m, x = EvStdout m)) post.
Proof. apply Forall_impl; intros x [H|[-> _]]; eauto. Qed.

(** A run that created the workspace [d] ended the way its block ended. *)
Lemma workspace_reached env raw args names inf d :
  parse_args env raw = inr args ->
  get_models_name (task args) (fast args) = (names, inf) ->
  In (EvTmpCreate d) (run_trace env raw) ->
  exists paths ip mp,
    snd (download_models env names inf) = inl (paths, ip, mp)
    /\ env_mkdtemp env = inl d
    /\ run_status env raw = exit_status (snd (in_workspace env args paths ip mp d))
    /\ (forall x, In x (fst (in_workspace env args paths ip mp d)) -> In x (run_trace env raw)).
Proof.
  intros Hp Hg Hin.
  destruct (run_event_in_workspace env raw args names inf (EvTmpCreate d) Hp Hg Hin
              eq_refl (fun H => H))
    as (paths & ip & mp & d' & Hd & _ & Hm & Hs & Hev & Hsub).
  assert (d' = d) as ->.
  { destruct Hev as [[= ->]|[[=]|Hev]]; [reflexivity|].
    exfalso; exact (proj1 (in_workspace_no_tmp_event env args paths ip mp d' _ Hev d) eq_refl). }
  exists paths, ip, mp; repeat split; auto.
  unfold run_status; rewrite (run_parsed _ _ _ Hp), Hs; reflexivity.
Qed.

Lemma str_app_assoc (a b c : string) : (a ++ (b ++ c))%string = ((a ++ b) ++ c)%string.
Proof. induction a as [|x a IH]; simpl; [reflexivity|rewrite IH; reflexivity]. Qed.

Lemma str_concat_snoc (l : list string) (x : string) :
  String.concat "" (l ++ [x]) = (String.concat "" l ++ x)%string.
Proof.
  induction l as [|a l IH]; [reflexivity|].
  destruct l as [|b l]; [reflexivity|].
  simpl in IH |- *; rewrite IH, str_app_assoc; reflexivity.
Qed.

Lemma has_supported_extension_div p c ext :
  In ext SUPPORTED_EXTENSIONS -> endswith c ext = true ->
  has_supported_extension (path_div p c) = true.
Proof.
  intros Hin Hc; unfold has_supported_extension.
  apply existsb_exists; exists ext; split; [exact Hin|].
  apply endswith_spec in Hc as [pre ->]; apply endswith_spec.
  assert (Hs : path_str (path_div p (pre ++ ext)) =
               (String.concat "" (map (fun c => "/" ++ c) p) ++ "/" ++ pre ++ ext)%string).
  { unfold path_str, path_div; destruct (p ++ [(pre ++ ext)%string])%list eqn:E.
    - destruct p; discriminate.
    - rewrite <- E, map_app; cbn [map]; rewrite str_concat_snoc; reflexivity. }
  rewrite Hs; exists (String.concat "" (map (fun c => "/" ++ c) p) ++ "/" ++ pre)%string.
  rewrite <- !str_app_assoc; reflexivity.
Qed.

(** ** X: what a run can do *)

(** A parsed run does nothing but: print messages on stderr, create the
    output's parent directory, download from the hub, create and remove its
    temporary directory [d] (the one [mkdtemp] returned), create
    [d/Dataset/P001], copy [Model.py] into [d], write [d/Dataset/P001/Volume.nii.gz],
    start the engine in [d], write the output file, and print the final
    message on stdout, which happens only without [-quiet] and on a run
    that exits with 0. *)
Theorem run_effects env raw args ev :
  parse_args env raw = inr args ->
  In ev (run_trace env raw) ->
  early_event args ev
  \/ (exists d, env_mkdtemp env = inl d
       /\ (ev = EvTmpCreate d \/ ev = EvTmpRemove d \/ ev = EvMkdirs (dataset_dir d)
           \/ (exists src, ev = EvCopy src (path_div d "Model.py"))
           \/ ev = EvWriteImage (volume_path d)
           \/ (exists c, ev = EvSpawn c d)))
  \/ ev = EvWriteImage (output args)
  \/ (ev = EvStdout (msg_done (output args)) /\ quiet args = false /\ run_status env raw = 0%Z).
Proof.
  intros Hp Hin.
  destruct (get_models_name (task args) (fast args)) as [names inf] eqn:Hg.
  destruct (run_trace_shape env raw args names inf Hp Hg)
    as [[Hf _]|(paths & ip & mp & d & pre & post & _ & Ht & Htr & Hst & Hpre & Hpost)].
  { left; rewrite Forall_forall in Hf; auto. }
  rewrite Htr in Hin; rewrite in_app_iff in Hin; simpl in Hin;
    rewrite in_app_iff in Hin; simpl in Hin.
  destruct Hin as [Hin|[<-|[Hin|[<-|Hin]]]].
  - left; rewrite Forall_forall in Hpre; auto.
  - right; left; exists d; auto 8.
  - destruct (in_workspace_events env args paths ip mp d ev Hin)
      as [->|[->|[->|[->|[->|[m ->]]]]]].
    + right; left; exists d; auto 8.
    + right; left; exists d; split; [exact Ht|]; do 3 right; left; eauto.
    + right; left; exists d; auto 8.
    + right; right; left; reflexivity.
    + right; left; exists d; split; [exact Ht|]; do 5 right; eauto.
    + left; left; eauto.
  - right; left; exists d; auto 8.
  - rewrite Forall_forall in Hpost; destruct (Hpost _ Hin) as [[m ->]|(-> & Hq & Hs)].
    + left; left; eauto.
    + do 3 right; split; [reflexivity|split; [exact Hq|rewrite Hst, Hs; reflexivity]].
Qed.

Lemma run_effects_witness :
  early_event (mkArgs ["home"; "scan.nii.gz"] ["data"; "seg.nii.gz"] "total" false false "" 1)
    (EvTmpCreate ["tmp"; "tmpab12"])
  \/ (exists d, env_mkdtemp (env_example 0) = inl d
       /\ (EvTmpCreate ["tmp"; "tmpab12"] = EvTmpCreate d
           \/ EvTmpCreate ["tmp"; "tmpab12"] = EvTmpRemove d
           \/ EvTmpCreate ["tmp"; "tmpab12"] = EvMkdirs (dataset_dir d)
           \/ (exists src, EvTmpCreate ["tmp"; "tmpab12"] = EvCopy src (path_div d "Model.py"))
           \/ EvTmpCreate ["tmp"; "tmpab12"] = EvWriteImage (volume_path d)
           \/ (exists c, EvTmpCreate ["tmp"; "tmpab12"] = EvSpawn c d)))
  \/ EvTmpCreate ["tmp"; "tmpab12"] = EvWriteImage ["data"; "seg.nii.gz"]
  \/ (EvTmpCreate ["tmp"; "tmpab12"] = EvStdout (msg_done ["data"; "seg.nii.gz"])
      /\ false = false
      /\ run_status (env_example 0)
           (raw_example ["home"; "scan.nii.gz"] ["data"; "seg.nii.gz"] None false None) = 0%Z).
Proof.
  apply (run_effects (env_example 0)
           (raw_example ["home"; "scan.nii.gz"] ["data"; "seg.nii.gz"] None false None)
           (mkArgs ["home"; "scan.nii.gz"] ["data"; "seg.nii.gz"] "total" false false "" 1)
           (EvTmpCreate ["tmp"; "tmpab12"])); vm_compute; auto 20.
Defined.

Lemma downloads_of_traceback r : downloads_of (traceback r) = [].
Proof. destruct r as [|[|]]; reflexivity. Qed.

Lemma downloads_of_Forall (P : Event -> Prop) l :
  Forall P l -> (forall f, ~ P (EvHubDownload f)) -> downloads_of l = [].
Proof.
  intros H Hn; apply downloads_of_none; intros ev Hin f ->.
  rewrite Forall_forall in H; exact (Hn f (H _ Hin)).
Qed.

Lemma In_hub_download_map f l : In (EvHubDownload f) (map EvHubDownload l) -> In f l.
Proof.
  rewrite in_map_iff; intros (x & Hx & Hin); injection Hx as ->; exact Hin.
Qed.


(** A failed hub download ends the run with status 1 after the download
    error message; the temporary directory is never created and the engine
    never started. *)
Theorem download_failure_aborts env raw args f err :
  parse_args env raw = inr args ->
  In (EvHubDownload f) (run_trace env raw) ->
  env_hub env f = inr err ->
  run_status env raw = 1%Z
  /\ In (EvStderr (msg_download_failed (HubError err))) (run_trace env raw)
  /\ (forall d, ~ In (EvTmpCreate d) (run_trace env raw))
  /\ (forall c d, ~ In (EvSpawn c d) (run_trace env raw)).
Proof.
  intros Hp Hin Hf; unfold run_trace, run_status in *; rewrite (run_parsed _ _ _ Hp) in *;
    simpl fst in *; simpl snd.
  destruct (get_models_name (task args) (fast args)) as [names inf] eqn:Hg.
  destruct (main_with_args_steps env args names inf Hg)
    as [(w & Hm & Hw)|(w0 & Hex & Hei & Heo & Hwh & Hw0 & Hcase)].
  { exfalso; rewrite Hm in Hin; simpl in Hin; rewrite app_nil_r, Forall_forall in *.
    destruct (Hw _ Hin) as [[m H]|H]; discriminate. }
  rewrite Forall_forall in Hw0.
  destruct Hcase as [(fs & g & rest & err' & Hsplit & Hok & Hhub & Hm)
                    |(paths & ip & mp & Hf2 & Hdm & Hmp & Hip & [(e & Hd & Hm)|(d & Hd & Hm)])];
    rewrite Hm in *; simpl fst in *; simpl snd in *.
  - assert (f = g) as ->.
    { rewrite app_nil_r in Hin.
      apply in_app_iff in Hin as [Hin|Hin]; [discriminate (Hw0 _ Hin)|].
      apply in_app_iff in Hin as [Hin|Hin]; [|destruct Hin as [Hin|[]]; discriminate].
      apply In_hub_download_map, in_app_iff in Hin as [Hin|[->|[]]]; [|reflexivity].
      rewrite Forall_forall in Hok; destruct (Hok _ Hin) as [p Hp']; congruence. }
    rewrite Hf in Hhub; injection Hhub as <-.
    split; [reflexivity|]; rewrite app_nil_r.
    split; [apply in_or_app; right; apply in_or_app; right; left; reflexivity|].
    split; [intros d Hin'|intros c d Hin'];
      (apply in_app_iff in Hin' as [Hin'|Hin']; [discriminate (Hw0 _ Hin')|];
       apply in_app_iff in Hin' as [Hin'|Hin'];
       [apply in_map_iff in Hin' as (x & Hx & _); discriminate
       |destruct Hin' as [Hin'|[]]; discriminate]).
  - exfalso.
    assert (Hall : Forall (fun f => exists p, env_hub env f = inl p) (names ++ ["Model.py"; inf]))
      by (apply Forall_app; split; [exact (Forall2_hub_ok _ _ _ Hf2)|eauto]).
    rewrite Forall_forall in Hall.
    apply in_app_iff in Hin as [Hin|Hin].
    + apply in_app_iff in Hin as [Hin|Hin]; [discriminate (Hw0 _ Hin)|].
      destruct (Hall _ (In_hub_download_map _ _ Hin)) as [p Hp']; congruence.
    + destruct Hin as [Hin|[]]; discriminate.
  - exfalso.
    assert (Hall : Forall (fun f => exists p, env_hub env f = inl p) (names ++ ["Model.py"; inf]))
      by (apply Forall_app; split; [exact (Forall2_hub_ok _ _ _ Hf2)|eauto]).
    rewrite Forall_forall in Hall.
    apply in_app_iff in Hin as [Hin|Hin].
    + apply in_app_iff in Hin as [Hin|Hin]; [discriminate (Hw0 _ Hin)|].
      apply in_app_iff in Hin as [Hin|Hin].
      * destruct (Hall _ (In_hub_download_map _ _ Hin)) as [p Hp']; congruence.
      * destruct Hin as [Hin|Hin]; [discriminate|].
        apply in_app_iff in Hin as [Hin|Hin].
        -- destruct (in_workspace_events env args paths ip mp d _ Hin)
             as [H|[H|[H|[H|[H|[m H]]]]]]; discriminate.
        -- destruct Hin as [Hin|Hin]; [discriminate|].
           destruct (snd (in_workspace env args paths ip mp d)) as [|[|]], (quiet args);
             simpl in Hin; in_cases Hin.
    + destruct (snd (in_workspace env args paths ip mp d)) as [|[|]]; simpl in Hin;
        in_cases Hin.
Qed.


Lemma download_failure_aborts_witness :
  run_status (env_hub_fails "Model.py")
    (raw_example ["home"; "scan.nii.gz"] ["data"; "seg.nii.gz"] None true None) = 1%Z
  /\ In (EvStderr (msg_download_failed (HubError "404 Client Error")))
       (run_trace (env_hub_fails "Model.py")
          (raw_example ["home"; "scan.nii.gz"] ["data"; "seg.nii.gz"] None true None))
  /\ (forall d, ~ In (EvTmpCreate d)
                  (run_trace (env_hub_fails "Model.py")
                     (raw_example ["home"; "scan.nii.gz"] ["data"; "seg.nii.gz"] None true None)))
  /\ (forall c d, ~ In (EvSpawn c d)
                    (run_trace (env_hub_fails "Model.py")
                       (raw_example ["home"; "scan.nii.gz"] ["data"; "seg.nii.gz"] None true None))).
Proof.
  apply (download_failure_aborts (env_hub_fails "Model.py")
           (raw_example ["home"; "scan.nii.gz"] ["data"; "seg.nii.gz"] None true None)
           (mkArgs ["home"; "scan.nii.gz"] ["data"; "seg.nii.gz"] "total" true false "" 1)
           "Model.py" "404 Client Error"); vm_compute; auto 20.
Defined.

Lemma occurs_before_mid a b pre x w y post :
  occurs_before a b w -> occurs_before a b (pre ++ x :: w ++ y :: post).
Proof.
  intros (p & q & -> & H); exists (pre ++ x :: p)%list, (q ++ y :: post)%list.
  split; [rewrite <- !app_assoc; simpl; rewrite <- ?app_assoc; reflexivity|].
  apply in_or_app; right; right; exact H.
Qed.

Lemma mkdir_parents_ok env p :
  env_is_dir env p = true \/ env_mkdir_error env p = None ->
  snd (mkdir_parents env p) = inl tt.
Proof.
  unfold mkdir_parents; destruct (env_is_dir env p); [reflexivity|].
  intros [H|H]; [discriminate|simpl; rewrite H; reflexivity].
Qed.

(** The engine is started only inside the temporary directory [d], after
    [d] was created, [Model.py] copied into it and the input converted to
    [d/Dataset/P001/Volume.nii.gz] without error, and before [d] is
    removed. *)
Theorem engine_started_after_staging env raw args c d :
  parse_args env raw = inr args ->
  In (EvSpawn c d) (run_trace env raw) ->
  env_mkdtemp env = inl d
  /\ env_copy_error env = None
  /\ env_read_error env (input args) = None
  /\ env_write_error env (volume_path d) = None
  /\ occurs_before (EvTmpCreate d) (EvSpawn c d) (run_trace env raw)
  /\ (exists src, occurs_before (EvCopy src (path_div d "Model.py")) (EvSpawn c d)
                    (run_trace env raw))
  /\ occurs_before (EvWriteImage (volume_path d)) (EvSpawn c d) (run_trace env raw)
  /\ occurs_before (EvSpawn c d) (EvTmpRemove d) (run_trace env raw).
Proof.
  intros Hp Hsp.
  destruct (spawn_in_run env raw args c d Hp Hsp) as (paths & ip & mp & Hs).
  destruct (get_models_name (task args) (fast args)) as [names inf] eqn:Hg.
  destruct Hs as (Hdm & _ & Hd & _ & _ & Hin & _).
  destruct (run_trace_shape env raw args names inf Hp Hg)
    as [[Hf _]|(paths' & ip' & mp' & d' & pre & post & Hdm' & Hd' & Htr & _ & _ & _)].
  { exfalso; rewrite Forall_forall in Hf; destruct (Hf _ Hsp) as [[m H]|[H|[f H]]];
      discriminate. }
  rewrite Hd in Hd'; injection Hd' as <-.
  rewrite Hdm in Hdm'; injection Hdm' as <- <- <-.
  destruct (in_workspace_spawn env args paths ip mp d c d Hin) as [Hc _].
  destruct (in_workspace_staging env args paths ip mp d c d Hin)
    as (Hcp & Hvol & He1 & He2 & He3).
  rewrite <- Hc in Hcp, Hvol; rewrite Htr.
  split; [exact Hd|]; split; [exact He1|]; split; [exact He2|]; split; [exact He3|].
  split; [apply occurs_before_app_l, occurs_before_head, in_or_app; left; exact Hin|].
  split; [exists mp; apply occurs_before_mid; exact Hcp|].
  split; [apply occurs_before_mid; exact Hvol|].
  exists (pre ++ EvTmpCreate d :: fst (in_workspace env args paths ip mp d))%list, post.
  split; [rewrite <- app_assoc; reflexivity|].
  apply in_or_app; right; right; exact Hin.
Qed.

(** Once the workspace [d] exists and [d/Dataset/P001] could be created, a
    failure to copy [Model.py] into [d] ends the run with status 1 and the
    copy error message, and the engine is not started. *)
Theorem copy_failure_stops_engine env raw args d e :
  parse_args env raw = inr args ->
  In (EvTmpCreate d) (run_trace env raw) ->
  env_is_dir env (dataset_dir d) = true \/ env_mkdir_error env (dataset_dir d) = None ->
  env_copy_error env = Some e ->
  run_status env raw = 1%Z
  /\ In (EvStderr (msg_cannot_copy (OSError e))) (run_trace env raw)
  /\ forall c cwd, ~ In (EvSpawn c cwd) (run_trace env raw).
Proof.
  intros Hp Hin Hmk He.
  destruct (get_models_name (task args) (fast args)) as [names inf] eqn:Hg.
  destruct (workspace_reached env raw args names inf d Hp Hg Hin)
    as (paths & ip & mp & Hdm & Hd & Hst & Hsub).
  destruct (in_workspace_copy_failed env args paths ip mp d e (mkdir_parents_ok _ _ Hmk) He)
    as (Hs & Hm & Hno).
  split; [rewrite Hst, Hs; reflexivity|]; split; [apply Hsub, Hm|].
  intros c cwd Hsp.
  destruct (spawn_in_run env raw args c cwd Hp Hsp) as (paths' & ip' & mp' & Hs').
  rewrite Hg in Hs'; destruct Hs' as (Hdm' & _ & Hd' & _ & _ & Hin' & _).
  rewrite Hd in Hd'; injection Hd' as <-.
  rewrite Hdm in Hdm'; injection Hdm' as <- <- <-.
  exact (Hno _ _ Hin').
Qed.

(** Once the workspace [d] exists, [d/Dataset/P001] could be created and
    [Model.py] was copied, a failure to read the input image or to write it
    to [d/Dataset/P001/Volume.nii.gz] ends the run with status 1 and the
    conversion error message, and the engine is not started. *)
Theorem conversion_failure_stops_engine env raw args d e :
  parse_args env raw = inr args ->
  In (EvTmpCreate d) (run_trace env raw) ->
  env_is_dir env (dataset_dir d) = true \/ env_mkdir_error env (dataset_dir d) = None ->
  env_copy_error env = None ->
  env_read_error env (input args) = Some e
  \/ (env_read_error env (input args) = None
      /\ env_write_error env (volume_path d) = Some e) ->
  run_status env raw = 1%Z
  /\ In (EvStderr (msg_convert_in (input args) (volume_path d) (ImageError e)))
       (run_trace env raw)
  /\ forall c cwd, ~ In (EvSpawn c cwd) (run_trace env raw).
Proof.
  intros Hp Hin Hmk Hc He.
  destruct (get_models_name (task args) (fast args)) as [names inf] eqn:Hg.
  destruct (workspace_reached env raw args names inf d Hp Hg Hin)
    as (paths & ip & mp & Hdm & Hd & Hst & Hsub).
  destruct (in_workspace_convert_failed env args paths ip mp d e
              (mkdir_parents_ok _ _ Hmk) Hc He) as (Hs & Hm & Hno).
  split; [rewrite Hst, Hs; reflexivity|]; split; [apply Hsub, Hm|].
  intros c cwd Hsp.
  destruct (spawn_in_run env raw args c cwd Hp Hsp) as (paths' & ip' & mp' & Hs').
  rewrite Hg in Hs'; destruct Hs' as (Hdm' & _ & Hd' & _ & _ & Hin' & _).
  rewrite Hd in Hd'; injection Hd' as <-.
  rewrite Hdm in Hdm'; injection Hdm' as <- <- <-.
  exact (Hno _ _ Hin').
Qed.

Lemma engine_started_after_staging_witness :
  env_mkdtemp (env_example 0) = inl ["tmp"; "tmpab12"]
  /\ env_copy_error (env_example 0) = None
  /\ env_read_error (env_example 0) ["home"; "scan.nii.gz"] = None
  /\ env_write_error (env_example 0) (volume_path ["tmp"; "tmpab12"]) = None
  /\ occurs_before (EvTmpCreate ["tmp"; "tmpab12"])
       (EvSpawn ["konfai"; "PREDICTION"; "-y"; "--MODEL"; "/cache/M297.pt"; "--config";
                 "/cache/Prediction_CT_Fast.yml"; "--cpu"; "1"] ["tmp"; "tmpab12"])
       (run_trace (env_example 0)
          (raw_example ["home"; "scan.nii.gz"] ["data"; "seg.nii.gz"] None true None))
  /\ (exists src, occurs_before (EvCopy src (path_div ["tmp"; "tmpab12"] "Model.py"))
       (EvSpawn ["konfai"; "PREDICTION"; "-y"; "--MODEL"; "/cache/M297.pt"; "--config";
                 "/cache/Prediction_CT_Fast.yml"; "--cpu"; "1"] ["tmp"; "tmpab12"])
       (run_trace (env_example 0)
          (raw_example ["home"; "scan.nii.gz"] ["data"; "seg.nii.gz"] None true None)))
  /\ occurs_before (EvWriteImage (volume_path ["tmp"; "tmpab12"]))
       (EvSpawn ["konfai"; "PREDICTION"; "-y"; "--MODEL"; "/cache/M297.pt"; "--config";
                 "/cache/Prediction_CT_Fast.yml"; "--cpu"; "1"] ["tmp"; "tmpab12"])
       (run_trace (env_example 0)
          (raw_example ["home"; "scan.nii.gz"] ["data"; "seg.nii.gz"] None true None))
  /\ occurs_before
       (EvSpawn ["konfai"; "PREDICTION"; "-y"; "--MODEL"; "/cache/M297.pt"; "--config";
                 "/cache/Prediction_CT_Fast.yml"; "--cpu"; "1"] ["tmp"; "tmpab12"])
       (EvTmpRemove ["tmp"; "tmpab12"])
       (run_trace (env_example 0)
          (raw_example ["home"; "scan.nii.gz"] ["data"; "seg.nii.gz"] None true None)).
Proof.
  apply (engine_started_after_staging (env_example 0)
           (raw_example ["home"; "scan.nii.gz"] ["data"; "seg.nii.gz"] None true None)
           (mkArgs ["home"; "scan.nii.gz"] ["data"; "seg.nii.gz"] "total" true false "" 1)
           ["konfai"; "PREDICTION"; "-y"; "--MODEL"; "/cache/M297.pt"; "--config";
            "/cache/Prediction_CT_Fast.yml"; "--cpu"; "1"] ["tmp"; "tmpab12"]);
    vm_compute; auto 20.
Defined.

Lemma copy_failure_stops_engine_witness :
  run_status env_copy_fails
    (raw_example ["home"; "scan.nii.gz"] ["data"; "seg.nii.gz"] None true None) = 1%Z
  /\ In (EvStderr (msg_cannot_copy (OSError "Permission denied")))
       (run_trace env_copy_fails
          (raw_example ["home"; "scan.nii.gz"] ["data"; "seg.nii.gz"] None true None))
  /\ forall c cwd, ~ In (EvSpawn c cwd)
       (run_trace env_copy_fails
          (raw_example ["home"; "scan.nii.gz"] ["data"; "seg.nii.gz"] None true None)).
Proof.
  apply (copy_failure_stops_engine env_copy_fails
           (raw_example ["home"; "scan.nii.gz"] ["data"; "seg.nii.gz"] None true None)
           (mkArgs ["home"; "scan.nii.gz"] ["data"; "seg.nii.gz"] "total" true false "" 1)
           ["tmp"; "tmpab12"] "Permission denied"); vm_compute; auto 20.
Defined.

Lemma conversion_failure_stops_engine_witness :
  run_status env_read_fails
    (raw_example ["home"; "scan.nii.gz"] ["data"; "seg.nii.gz"] None true None) = 1%Z
  /\ In (EvStderr (msg_convert_in ["home"; "scan.nii.gz"] (volume_path ["tmp"; "tmpab12"])
                    (ImageError "corrupt header")))
       (run_trace env_read_fails
          (raw_example ["home"; "scan.nii.gz"] ["data"; "seg.nii.gz"] None true None))
  /\ forall c cwd, ~ In (EvSpawn c cwd)
       (run_trace env_read_fails
          (raw_example ["home"; "scan.nii.gz"] ["data"; "seg.nii.gz"] None true None)).
Proof.
  apply (conversion_failure_stops_engine env_read_fails
           (raw_example ["home"; "scan.nii.gz"] ["data"; "seg.nii.gz"] None true None)
           (mkArgs ["home"; "scan.nii.gz"] ["data"; "seg.nii.gz"] "total" true false "" 1)
           ["tmp"; "tmpab12"] "corrupt header"); vm_compute; auto 20.
Defined.

Section Workspace3.
Variables (env : Env) (args : Args) (models_path : list string)
  (inference_file_path model_path : string) (tmpdir : Path).

Local Abbreviation ws := (in_workspace env args models_path inference_file_path model_path tmpdir).

Lemma in_workspace_convert_out_failed c cwd e :
  In (EvSpawn c cwd) (fst ws) ->
  env_engine env = EngineExited 0 -> env_pred_exists env = true ->
  env_read_error env (prediction_path tmpdir) = Some e
  \/ (env_read_error env (prediction_path tmpdir) = None
      /\ env_write_error env (output args) = Some e) ->
  snd ws = inr (SysExit 1)
  /\ In (EvStderr (msg_convert_out (prediction_path tmpdir) (output args) (ImageError e)))
       (fst ws).
Proof.
  ws_open; intros Hin He Hpe Hr; in_cases Hin; try congruence;
    destruct Hr as [Hr|[Hr1 Hr2]]; try congruence;
    repeat match goal with H : Some _ = Some _ |- _ => injection H as -> end;
    finish.
Qed.

Lemma in_workspace_success_engine :
  snd ws = inl tt ->
  env_engine env = EngineExited 0
  /\ In (EvSpawn (build_cmd models_path inference_file_path (gpu args) (cpu args) (quiet args))
                 tmpdir) (fst ws)
  /\ In (EvWriteImage (output args)) (fst ws).
Proof.
  ws_open; intros H; try discriminate; finish.
  all: congruence.
Qed.

End Workspace3.

Lemma parse_args_fields env raw args :
  parse_args env raw = inr args ->
  raw_input raw = Some (input args)
  /\ output args = match raw_output raw with
                   | Some o => o | None => path_div (env_cwd env) "Seg.nii.gz" end
  /\ (task args = "total" \/ task args = "total_mr")
  /\ quiet args = raw_quiet raw
  /\ gpu args = match raw_gpu raw with
                | Some g => g
                | None => match env_cuda_visible_devices env with Some g => g | None => "" end
                end
  /\ cpu args = match raw_cpu raw with Some c => c | None => 1%Z end.
Proof.
  unfold parse_args, check_task_choice.
  destruct (raw_task raw) as [t|] eqn:Ht.
  - destruct (existsb (String.eqb t) _get_available_models) eqn:Ex; [|discriminate].
    destruct (raw_input raw) as [i|]; [|discriminate].
    intros H; injection H as <-; simpl; repeat split; auto.
    simpl in Ex; rewrite !orb_true_iff in Ex.
    destruct Ex as [E|[E|E]]; [left|right|discriminate]; apply String.eqb_eq; exact E.
  - destruct (raw_input raw) as [i|]; [|discriminate].
    intros H; injection H as <-; simpl; repeat split; auto.
Qed.

(** A missing input file, or an input whose name has none of the supported
    extensions, ends the run with status 1 after its error message(s) on
    stderr, before anything else happens: no directory is created, nothing
    downloaded or written. *)
Theorem input_rejected_first env raw args :
  parse_args env raw = inr args ->
  (env_exists env (input args) = false ->
     run_trace env raw = [EvStderr (msg_input_missing (input args))]
     /\ run_status env raw = 1%Z)
  /\ (env_exists env (input args) = true ->
      has_supported_extension (input args) = false ->
      run_trace env raw = [EvStderr (msg_unsupported_input (path_name (input args)));
                           EvStderr msg_supported]
      /\ run_status env raw = 1%Z).
Proof.
  intros Hp; unfold run_trace, run_status; rewrite (run_parsed _ _ _ Hp).
  unfold main_with_args, check_input; split.
  - intros He; rewrite He; split; reflexivity.
  - intros He Hx; rewrite He, Hx; split; reflexivity.
Qed.

(** When the output's parent directory is missing and cannot be created, the
    run ends with status 1 after that attempt and its error message, once
    the input checks passed; nothing else happens. *)
Theorem output_dir_failure env raw args e :
  parse_args env raw = inr args ->
  env_exists env (input args) = true ->
  has_supported_extension (input args) = true ->
  env_is_dir env (path_parent (output args)) = false ->
  env_mkdir_error env (path_parent (output args)) = Some e ->
  run_trace env raw =
    [EvMkdirs (path_parent (output args));
     EvStderr (msg_cannot_create_dir (path_parent (output args)) (OSError e))]
  /\ run_status env raw = 1%Z.
Proof.
  intros Hp He Hx Hd Hm; unfold run_trace, run_status; rewrite (run_parsed _ _ _ Hp).
  unfold main_with_args, check_input, check_output, mkdir_parents.
  rewrite He, Hx, Hd, Hm; split; reflexivity.
Qed.

(** Without a [konfai] executable on the PATH the run ends with status 1:
    nothing is downloaded and no temporary directory is created; once the
    input and output checks passed, the message saying so is printed. *)
Theorem konfai_missing_stops_before_download env raw args :
  parse_args env raw = inr args ->
  env_which_konfai env = false ->
  run_status env raw = 1%Z
  /\ downloads_of (run_trace env raw) = []
  /\ (forall d, ~ In (EvTmpCreate d) (run_trace env raw))
  /\ (env_exists env (input args) = true ->
      has_supported_extension (input args) = true ->
      env_is_dir env (path_parent (output args)) = true
      \/ env_mkdir_error env (path_parent (output args)) = None ->
      has_supported_extension (output args) = true ->
      In (EvStderr msg_konfai_not_in_path) (run_trace env raw)).
Proof.
  intros Hp Hw.
  destruct (get_models_name (task args) (fast args)) as [names inf] eqn:Hg.
  split; [|split; [|split]].
  4: { intros He Hx Hmk Ho; unfold run_trace; rewrite (run_parsed _ _ _ Hp).
       pose proof (mkdir_parents_ok env _ Hmk) as Hm.
       unfold main_with_args, check_input, check_output, ensure_konfai_available.
       destruct (mkdir_parents env (path_parent (output args))) as [w r]; simpl in Hm; subst r.
       rewrite He, Hx, Ho, Hw; simpl.
       rewrite !in_app_iff; simpl; auto. }
  all: destruct (main_with_args_steps env args names inf Hg)
    as [(w & Hm & Hf)|(w0 & _ & _ & _ & Hw' & _)]; [|congruence].
  all: unfold run_trace, run_status; rewrite (run_parsed _ _ _ Hp), Hm; cbn [fst snd].
  - reflexivity.
  - rewrite downloads_of_app, downloads_of_traceback, app_nil_r.
    apply (downloads_of_Forall _ w Hf); intros f [[m H]|H]; discriminate.
  - intros d Hin; rewrite app_nil_r, Forall_forall in *.
    destruct (Hf _ Hin) as [[m H]|H]; discriminate.
Qed.

(** Without [-g/--gpu], the engine command takes its device from
    [CUDA_VISIBLE_DEVICES]: [--gpu <value>] when that variable is set and
    non-empty, [--cpu <count>] otherwise. *)
Theorem engine_gpu_default env raw args c d :
  parse_args env raw = inr args ->
  raw_gpu raw = None ->
  In (EvSpawn c d) (run_trace env raw) ->
  firstn 2 (skipn 7 c) =
    match env_cuda_visible_devices env with
    | Some g => if String.eqb g "" then ["--cpu"; str_int (cpu args)] else ["--gpu"; g]
    | None => ["--cpu"; str_int (cpu args)]
    end.
Proof.
  intros Hp Hg Hin.
  destruct (parse_args_fields env raw args Hp) as (_ & _ & _ & _ & Hgpu & _).
  rewrite Hg in Hgpu.
  destruct (spawn_in_run env raw args c d Hp Hin) as (paths & ip & mp & H).
  destruct (get_models_name (task args) (fast args)) as [names inf].
  destruct H as (_ & _ & _ & -> & _).
  unfold build_cmd; rewrite Hgpu.
  destruct (env_cuda_visible_devices env) as [g|]; [destruct (String.eqb g "")|];
    destruct (quiet args); reflexivity.
Qed.

(** The engine command has 9 arguments, and a tenth, [-quiet], exactly when
    the run was started with [-quiet]. *)
Theorem engine_quiet_flag env raw args c d :
  parse_args env raw = inr args ->
  In (EvSpawn c d) (run_trace env raw) ->
  length c = (if raw_quiet raw then 10 else 9)
  /\ (raw_quiet raw = true -> nth 9 c "" = "-quiet").
Proof.
  intros Hp Hin.
  destruct (parse_args_fields env raw args Hp) as (_ & _ & _ & Hq & _).
  destruct (spawn_in_run env raw args c d Hp Hin) as (paths & ip & mp & H).
  destruct (get_models_name (task args) (fast args)) as [names inf].
  destruct H as (_ & _ & _ & -> & _).
  unfold build_cmd; rewrite <- Hq.
  destruct (negb (String.eqb (gpu args) "")), (quiet args); split; try reflexivity;
    discriminate.
Qed.

(** A run started with [-quiet] whose arguments argparse accepts (so
    neither [-h] nor [--version] was given) prints nothing on stdout. *)
Theorem quiet_no_stdout env raw args m :
  parse_args env raw = inr args ->
  raw_quiet raw = true ->
  ~ In (EvStdout m) (run_trace env raw).
Proof.
  intros Hp Hq Hin.
  destruct (parse_args_fields env raw args Hp) as (_ & _ & _ & Hq' & _).
  rewrite <- Hq' in Hq.
  destruct (get_models_name (task args) (fast args)) as [names inf] eqn:Hg.
  destruct (run_trace_shape env raw args names inf Hp Hg)
    as [[Hf _]|(paths & ip & mp & d & pre & post & _ & _ & Htr & _ & Hpre & Hpost)].
  - rewrite Forall_forall in Hf; destruct (Hf _ Hin) as [[m' H]|[H|[f H]]]; discriminate.
  - rewrite Htr in Hin; rewrite Forall_forall in Hpre, Hpost.
    apply in_app_iff in Hin as [Hin|Hin];
      [destruct (Hpre _ Hin) as [[m' H]|[H|[f H]]]; discriminate|].
    destruct Hin as [Hin|Hin]; [discriminate|].
    apply in_app_iff in Hin as [Hin|Hin].
    + destruct (in_workspace_events env args paths ip mp d _ Hin)
        as [H|[H|[H|[H|[H|[m' H]]]]]]; discriminate.
    + destruct Hin as [Hin|Hin]; [discriminate|].
      destruct (Hpost _ Hin) as [[m' H]|(_ & H & _)]; [discriminate|congruence].
Qed.

(** Without [-o], the output is [Seg.nii.gz] in the working directory, and
    that path passes the output extension check. *)
Theorem default_output_supported env raw args :
  parse_args env raw = inr args ->
  raw_output raw = None ->
  output args = path_div (env_cwd env) "Seg.nii.gz"
  /\ has_supported_extension (output args) = true.
Proof.
  intros Hp Ho.
  destruct (parse_args_fields env raw args Hp) as (_ & Hout & _).
  rewrite Ho in Hout; rewrite Hout; split; [reflexivity|].
  apply (has_supported_extension_div _ _ "nii.gz"); [simpl; tauto|reflexivity].
Qed.

(** Every task argparse accepts names at least one model file and a
    non-empty inference configuration, in both modes. *)
Theorem parsed_task_has_models env raw args :
  parse_args env raw = inr args ->
  fst (get_models_name (task args) (fast args)) <> []
  /\ snd (get_models_name (task args) (fast args)) <> "".
Proof.
  intros Hp.
  destruct (parse_args_fields env raw args Hp) as (_ & _ & [-> | ->] & _);
    destruct (fast args); split; discriminate.
Qed.

(** After the engine exited with 0 and left its prediction, a failure to read
    the prediction or to write the output ends the run with status 1 and the
    output conversion message, and the final message is not printed. *)
Theorem output_conversion_failure env raw args c d e :
  parse_args env raw = inr args ->
  In (EvSpawn c d) (run_trace env raw) ->
  env_engine env = EngineExited 0 ->
  env_pred_exists env = true ->
  env_read_error env (prediction_path d) = Some e
  \/ (env_read_error env (prediction_path d) = None
      /\ env_write_error env (output args) = Some e) ->
  run_status env raw = 1%Z
  /\ In (EvStderr (msg_convert_out (prediction_path d) (output args) (ImageError e)))
       (run_trace env raw)
  /\ ~ In (EvStdout (msg_done (output args))) (run_trace env raw).
Proof.
  intros Hp Hsp He Hpe Hr.
  destruct (spawn_in_run env raw args c d Hp Hsp) as (paths & ip & mp & H).
  destruct (get_models_name (task args) (fast args)) as [names inf] eqn:Hg.
  destruct H as (Hdm & _ & Hd & _ & _ & Hin & Hsub).
  destruct (in_workspace_convert_out_failed env args paths ip mp d c d e Hin He Hpe Hr)
    as [Hs Hm].
  destruct (run_trace_shape env raw args names inf Hp Hg)
    as [[Hf _]|(paths' & ip' & mp' & d' & pre & post & Hdm' & Hd' & Htr & Hst & Hpre & Hpost)].
  { exfalso; rewrite Forall_forall in Hf; destruct (Hf _ Hsp) as [[m H]|[H|[f H]]];
      discriminate. }
  rewrite Hd in Hd'; injection Hd' as <-.
  rewrite Hdm in Hdm'; injection Hdm' as <- <- <-.
  split; [rewrite Hst, Hs; reflexivity|]; split; [apply Hsub, Hm|].
  intros Hin'; rewrite Htr in Hin'; rewrite Forall_forall in Hpre, Hpost.
  apply in_app_iff in Hin' as [Hin'|Hin'];
    [destruct (Hpre _ Hin') as [[m' H]|[H|[f H]]]; discriminate|].
  destruct Hin' as [Hin'|Hin']; [discriminate|].
  apply in_app_iff in Hin' as [Hin'|Hin'].
  - destruct (in_workspace_events env args paths ip mp d _ Hin')
      as [H|[H|[H|[H|[H|[m' H]]]]]]; discriminate.
  - destruct Hin' as [Hin'|Hin']; [discriminate|].
    destruct (Hpost _ Hin') as [[m' H]|(_ & _ & H)]; [discriminate|congruence].
Qed.

Lemma input_rejected_first_witness :
  (env_exists (env_example 0) ["home"; "scan.txt"] = false ->
     run_trace (env_example 0)
       (raw_example ["home"; "scan.txt"] ["data"; "seg.nii.gz"] None false None)
       = [EvStderr (msg_input_missing ["home"; "scan.txt"])]
     /\ run_status (env_example 0)
          (raw_example ["home"; "scan.txt"] ["data"; "seg.nii.gz"] None false None) = 1%Z)
  /\ (env_exists (env_example 0) ["home"; "scan.txt"] = true ->
      has_supported_extension ["home"; "scan.txt"] = false ->
      run_trace (env_example 0)
        (raw_example ["home"; "scan.txt"] ["data"; "seg.nii.gz"] None false None)
        = [EvStderr (msg_unsupported_input (path_name ["home"; "scan.txt"]));
           EvStderr msg_supported]
      /\ run_status (env_example 0)
           (raw_example ["home"; "scan.txt"] ["data"; "seg.nii.gz"] None false None) = 1%Z).
Proof.
  apply (input_rejected_first (env_example 0)
           (raw_example ["home"; "scan.txt"] ["data"; "seg.nii.gz"] None false None)
           (mkArgs ["home"; "scan.txt"] ["data"; "seg.nii.gz"] "total" false false "" 1));
    vm_compute; reflexivity.
Defined.

Lemma output_dir_failure_witness :
  run_trace env_outdir_fails
    (raw_example ["home"; "scan.nii.gz"] ["data"; "seg.nii.gz"] None false None) =
    [EvMkdirs ["data"];
     EvStderr (msg_cannot_create_dir ["data"] (OSError "Permission denied"))]
  /\ run_status env_outdir_fails
       (raw_example ["home"; "scan.nii.gz"] ["data"; "seg.nii.gz"] None false None) = 1%Z.
Proof.
  apply (output_dir_failure env_outdir_fails
           (raw_example ["home"; "scan.nii.gz"] ["data"; "seg.nii.gz"] None false None)
           (mkArgs ["home"; "scan.nii.gz"] ["data"; "seg.nii.gz"] "total" false false "" 1)
           "Permission denied"); vm_compute; reflexivity.
Defined.

Lemma konfai_missing_stops_before_download_witness :
  run_status env_no_konfai
    (raw_example ["home"; "scan.nii.gz"] ["data"; "seg.nii.gz"] None false None) = 1%Z
  /\ downloads_of (run_trace env_no_konfai
       (raw_example ["home"; "scan.nii.gz"] ["data"; "seg.nii.gz"] None false None)) = []
  /\ (forall d, ~ In (EvTmpCreate d) (run_trace env_no_konfai
       (raw_example ["home"; "scan.nii.gz"] ["data"; "seg.nii.gz"] None false None)))
  /\ (env_exists env_no_konfai ["home"; "scan.nii.gz"] = true ->
      has_supported_extension ["home"; "scan.nii.gz"] = true ->
      env_is_dir env_no_konfai (path_parent ["data"; "seg.nii.gz"]) = true
      \/ env_mkdir_error env_no_konfai (path_parent ["data"; "seg.nii.gz"]) = None ->
      has_supported_extension ["data"; "seg.nii.gz"] = true ->
      In (EvStderr msg_konfai_not_in_path) (run_trace env_no_konfai
        (raw_example ["home"; "scan.nii.gz"] ["data"; "seg.nii.gz"] None false None))).
Proof.
  apply (konfai_missing_stops_before_download env_no_konfai
           (raw_example ["home"; "scan.nii.gz"] ["data"; "seg.nii.gz"] None false None)
           (mkArgs ["home"; "scan.nii.gz"] ["data"; "seg.nii.gz"] "total" false false "" 1));
    vm_compute; reflexivity.
Defined.

Lemma engine_gpu_default_witness :
  firstn 2 (skipn 7 ["konfai"; "PREDICTION"; "-y"; "--MODEL";
                     "/cache/M850.pt:/cache/M851.pt"; "--config";
                     "/cache/Prediction_MR.yml"; "--gpu"; "0,1"])
  = match env_cuda_visible_devices (env_cuda (Some "0,1")) with
    | Some g => if String.eqb g "" then ["--cpu"; str_int 4] else ["--gpu"; g]
    | None => ["--cpu"; str_int 4]
    end.
Proof.
  apply (engine_gpu_default (env_cuda (Some "0,1")) (raw_no_output ["home"; "scan.nii.gz"] false)
           (mkArgs ["home"; "scan.nii.gz"] ["home"; "Seg.nii.gz"] "total_mr" false false "0,1" 4)
           ["konfai"; "PREDICTION"; "-y"; "--MODEL"; "/cache/M850.pt:/cache/M851.pt";
            "--config"; "/cache/Prediction_MR.yml"; "--gpu"; "0,1"] ["tmp"; "tmpab12"]);
    vm_compute; auto 20.
Defined.

Lemma engine_quiet_flag_witness :
  length ["konfai"; "PREDICTION"; "-y"; "--MODEL"; "/cache/M850.pt:/cache/M851.pt";
          "--config"; "/cache/Prediction_MR.yml"; "--cpu"; "4"; "-quiet"]
    = (if raw_quiet (raw_no_output ["home"; "scan.nii.gz"] true) then 10 else 9)
  /\ (raw_quiet (raw_no_output ["home"; "scan.nii.gz"] true) = true ->
      nth 9 ["konfai"; "PREDICTION"; "-y"; "--MODEL"; "/cache/M850.pt:/cache/M851.pt";
             "--config"; "/cache/Prediction_MR.yml"; "--cpu"; "4"; "-quiet"] "" = "-quiet").
Proof.
  apply (engine_quiet_flag (env_example 0) (raw_no_output ["home"; "scan.nii.gz"] true)
           (mkArgs ["home"; "scan.nii.gz"] ["home"; "Seg.nii.gz"] "total_mr" false true "" 4)
           ["konfai"; "PREDICTION"; "-y"; "--MODEL"; "/cache/M850.pt:/cache/M851.pt";
            "--config"; "/cache/Prediction_MR.yml"; "--cpu"; "4"; "-quiet"] ["tmp"; "tmpab12"]);
    vm_compute; auto 20.
Defined.

Lemma quiet_no_stdout_witness :
  ~ In (EvStdout (msg_done ["home"; "Seg.nii.gz"]))
    (run_trace (env_example 0) (raw_no_output ["home"; "scan.nii.gz"] true)).
Proof.
  apply (quiet_no_stdout (env_example 0) (raw_no_output ["home"; "scan.nii.gz"] true)
           (mkArgs ["home"; "scan.nii.gz"] ["home"; "Seg.nii.gz"] "total_mr" false true "" 4));
    vm_compute; reflexivity.
Defined.

Lemma default_output_supported_witness :
  ["home"; "Seg.nii.gz"] = path_div (env_cwd (env_example 0)) "Seg.nii.gz"
  /\ has_supported_extension ["home"; "Seg.nii.gz"] = true.
Proof.
  apply (default_output_supported (env_example 0) (raw_no_output ["home"; "scan.nii.gz"] false)
           (mkArgs ["home"; "scan.nii.gz"] ["home"; "Seg.nii.gz"] "total_mr" false false "" 4));
    vm_compute; reflexivity.
Defined.

Lemma parsed_task_has_models_witness :
  fst (get_models_name "total_mr" false) <> []
  /\ snd (get_models_name "total_mr" false) <> "".
Proof.
  apply (parsed_task_has_models (env_example 0) (raw_no_output ["home"; "scan.nii.gz"] false)
           (mkArgs ["home"; "scan.nii.gz"] ["home"; "Seg.nii.gz"] "total_mr" false false "" 4));
    vm_compute; reflexivity.
Defined.

Lemma output_conversion_failure_witness :
  run_status env_pred_unreadable
    (raw_example ["home"; "scan.nii.gz"] ["data"; "seg.nii.gz"] None true None) = 1%Z
  /\ In (EvStderr (msg_convert_out (prediction_path ["tmp"; "tmpab12"]) ["data"; "seg.nii.gz"]
                    (ImageError "truncated file")))
       (run_trace env_pred_unreadable
          (raw_example ["home"; "scan.nii.gz"] ["data"; "seg.nii.gz"] None true None))
  /\ ~ In (EvStdout (msg_done ["data"; "seg.nii.gz"]))
       (run_trace env_pred_unreadable
          (raw_example ["home"; "scan.nii.gz"] ["data"; "seg.nii.gz"] None true None)).
Proof.
  apply (output_conversion_failure env_pred_unreadable
           (raw_example ["home"; "scan.nii.gz"] ["data"; "seg.nii.gz"] None true None)
           (mkArgs ["home"; "scan.nii.gz"] ["data"; "seg.nii.gz"] "total" true false "" 1)
           ["konfai"; "PREDICTION"; "-y"; "--MODEL"; "/cache/M297.pt"; "--config";
            "/cache/Prediction_CT_Fast.yml"; "--cpu"; "1"] ["tmp"; "tmpab12"]
           "truncated file"); vm_compute; auto 20.
Defined.

(** A run whose arguments argparse accepts (so neither [-h] nor [--version]
    was given) and that exits with status 0 started the engine, which exited
    with 0, wrote the output file, and, without [-quiet], printed the final
    message; the engine's return code is one the system can report. *)
Theorem success_run env raw args :
  parse_args env raw = inr args ->
  returncode_in_range env ->
  run_status env raw = 0%Z ->
  env_engine env = EngineExited 0
  /\ (exists c d, In (EvSpawn c d) (run_trace env raw))
  /\ In (EvWriteImage (output args)) (run_trace env raw)
  /\ (quiet args = false -> In (EvStdout (msg_done (output args))) (run_trace env raw)).
Proof.
  intros Hp Hrange Hs; unfold run_trace, run_status in *; rewrite (run_parsed _ _ _ Hp) in *;
    cbn [fst snd] in *.
  destruct (get_models_name (task args) (fast args)) as [names inf] eqn:Hg.
  destruct (main_with_args_steps env args names inf Hg)
    as [(w & Hm & _)|(w0 & _ & _ & _ & _ & _ & Hcase)];
    [rewrite Hm in Hs; discriminate|].
  destruct Hcase as [(fs & g & rest & err & _ & _ & _ & Hm)
                    |(paths & ip & mp & _ & _ & _ & _ & [(e & _ & Hm)|(d & _ & Hm)])];
    rewrite Hm in *; cbn [fst snd] in *; [discriminate|discriminate|].
  destruct (snd (in_workspace env args paths ip mp d)) as [[]|[rc|ex]] eqn:Hr;
    simpl in Hs;
    [|destruct (in_workspace_status env args paths ip mp d)
        as [H|[H|[[e H]|(rc' & H & He' & Hrc & _)]]]; rewrite Hr in H; try discriminate;
      injection H as ->;
      [vm_compute in Hs; discriminate
      |exfalso; exact (Hrc (land_255_zero _ (Hrange _ He') Hs))]
    |discriminate].
  destruct (in_workspace_success_engine env args paths ip mp d Hr) as (He & Hsp & Hw).
  split; [exact He|].
  assert (Hmid : forall x, In x (fst (in_workspace env args paths ip mp d)) ->
                 In x ((w0 ++ map EvHubDownload (names ++ ["Model.py"; inf])
                          ++ EvTmpCreate d :: fst (in_workspace env args paths ip mp d)
                          ++ EvTmpRemove d :: (if quiet args then []
                                               else [EvStdout (msg_done (output args))]))
                         ++ traceback (inl tt))%list).
  { intros x H; apply in_or_app; left; apply in_or_app; right; apply in_or_app; right;
      right; apply in_or_app; left; exact H. }
  split; [exists (build_cmd paths ip (gpu args) (cpu args) (quiet args)), d; apply Hmid, Hsp|].
  split; [apply Hmid, Hw|].
  intros Hq; rewrite Hq; apply in_or_app; left; apply in_or_app; right; apply in_or_app; right;
    right; apply in_or_app; right; right; left; reflexivity.
Qed.

Lemma success_run_witness :
  env_engine (env_example 0) = EngineExited 0
  /\ (exists c d, In (EvSpawn c d) (run_trace (env_example 0)
        (raw_example ["home"; "scan.nii.gz"] ["data"; "seg.nii.gz"] None false None)))
  /\ In (EvWriteImage ["data"; "seg.nii.gz"]) (run_trace (env_example 0)
        (raw_example ["home"; "scan.nii.gz"] ["data"; "seg.nii.gz"] None false None))
  /\ (false = false -> In (EvStdout (msg_done ["data"; "seg.nii.gz"]))
        (run_trace (env_example 0)
           (raw_example ["home"; "scan.nii.gz"] ["data"; "seg.nii.gz"] None false None))).
Proof.
  apply (success_run (env_example 0)
           (raw_example ["home"; "scan.nii.gz"] ["data"; "seg.nii.gz"] None false None)
           (mkArgs ["home"; "scan.nii.gz"] ["data"; "seg.nii.gz"] "total" false false "" 1)).
  - vm_compute; reflexivity.
  - intros rc He; injection He as <-; lia.
  - vm_compute; reflexivity.
Defined.
